(** * Alina voice assistant: STT -> LLM -> TTS pipeline, session lifecycle and history

    Shallow embedding of
      - backend/assistant/alina.py   (AlinaAssistant: history, trimming, handle_user_audio,
                                      _llm_streaming; _b64)
      - backend/alina_server.py      (active_cancels, _fallback_pipeline, alina_voice)
      - backend/elevenlabs_client.py (tts_elevenlabs, the empty-text guard)
      - backend/assistant/llm_client.py (chat_with_alina, chat_with_alina_stream)
      - backend/assistant/stt_client.py (_normalize_lang)

    The three remote adapters (Deepgram STT, OpenAI chat, ElevenLabs TTS) are
    opaque: a run receives their outcomes as an oracle ([None] = the call
    raised).  Every adapter call is recorded in a trace so that statements can
    speak about which adapters were invoked and with which prompt.

    Python [str] values are modelled as Rocq [string]s of ASCII code points;
    Python's [str.strip()] strips the ASCII characters for which
    [str.isspace()] holds. *)

From Stdlib Require Import ZArith Lia.
From stdpp Require Import base gmap list strings.
Open Scope Z_scope.

(* ------------------------------------------------------------------ *)
(** ** Python primitives *)

Module Py.

(** [str.isspace] on ASCII: \t \n \x0b \x0c \r \x1c \x1d \x1e \x1f and space. *)
Definition isspace (c : Ascii.ascii) : bool :=
  let n := Ascii.nat_of_ascii c in
  (Nat.leb 9 n && Nat.leb n 13) || (Nat.leb 28 n && Nat.leb n 32).

Fixpoint lstrip (s : string) : string :=
  match s with
  | EmptyString => EmptyString
  | String c s' => if isspace c then lstrip s' else s
  end.

Fixpoint rev_str (s : string) (acc : string) : string :=
  match s with
  | EmptyString => acc
  | String c s' => rev_str s' (String c acc)
  end.

(** [str.strip()] *)
Definition strip (s : string) : string :=
  rev_str (lstrip (rev_str (lstrip s) EmptyString)) EmptyString.

(** Truthiness of a [str]: non-empty. *)
Definition str_truthy (s : string) : bool :=
  match s with EmptyString => false | _ => true end.

(** Python slice [l[j:]] for an integer [j] (negative [j] counts from the end;
    note that [-0 = 0], so [l[-0:]] is the whole list). *)
Definition slice_from {A} (l : list A) (j : Z) : list A :=
  let n := Z.of_nat (length l) in
  let start := if j <? 0 then Z.max 0 (n + j) else Z.min j n in
  drop (Z.to_nat start) l.

End Py.

(** Values returned by the call [stt_transcribe(...)] in [handle_user_audio].
    alina.py binds [stt_transcribe] to [stt_client.transcribe_audio] when it
    exists and otherwise to [stt_client.transcribe]; the latter is an
    [async def], so calling it without [await] yields a coroutine object. *)
Inductive py_val :=
| PStr (s : string)
| PCoro.

(** [str(v)] *)
Definition py_str (v : py_val) : string :=
  match v with
  | PStr s => s
  | PCoro => "<coroutine object transcribe>"
  end.

(** [bool(v)] *)
Definition py_truthy (v : py_val) : bool :=
  match v with
  | PStr s => Py.str_truthy s
  | PCoro => true
  end.

(* ------------------------------------------------------------------ *)
(** ** Turns and the history of an [AlinaAssistant] *)

Inductive role := System | User | Assistant.

Record turn := mk_turn { role_of : role; content : string }.

Definition _lang_norm (mode : string) : string :=
  let m := Py.strip mode in
  if decide (m = "ru" \/ m = "rus" \/ m = "russian") then "ru"
  else if decide (m = "en" \/ m = "eng" \/ m = "english") then "en"
  else if decide (m = "th" \/ m = "thai") then "th"
  else "ru".

(** The language-mode system prompt (texts abbreviated). *)
Definition _system_prompt (lang : string) : string :=
  if decide (lang = "en") then "You are Alina, a concise, helpful voice assistant."
  else if decide (lang = "th") then "Alina (th) system prompt"
  else "Alina (ru) system prompt".

Record alina_assistant := mk_assistant {
  lang : string;
  max_history_turns : Z;
  history : list turn
}.

Definition _reset_history (a : alina_assistant) : alina_assistant :=
  mk_assistant (lang a) (max_history_turns a)
    [mk_turn System (_system_prompt (lang a))].

(** [AlinaAssistant(mode, max_history_turns)] *)
Definition new_assistant (mode : string) (max_turns : Z) : alina_assistant :=
  _reset_history (mk_assistant (_lang_norm mode) max_turns []).

Definition set_history (a : alina_assistant) (h : list turn) : alina_assistant :=
  mk_assistant (lang a) (max_history_turns a) h.

(** [_trim_history]:
<<
    if len(self.history) <= 1: return
    keep = 1 + self.max_history_turns * 2
    if len(self.history) > keep:
        self.history = [self.history[0]] + self.history[-(keep - 1):]
>> *)
Definition _trim_history (a : alina_assistant) : alina_assistant :=
  let h := history a in
  let len := Z.of_nat (length h) in
  if len <=? 1 then a
  else
    let keep := 1 + max_history_turns a * 2 in
    if len >? keep then set_history a (take 1 h ++ Py.slice_from h (- (keep - 1)))
    else a.

(** [self.history.append(t); self._trim_history()] *)
Definition append_trim (a : alina_assistant) (t : turn) : alina_assistant :=
  _trim_history (set_history a (history a ++ [t])).

(* ------------------------------------------------------------------ *)
(** ** Adapter calls, cancellation tokens and results *)

(** What a run does towards the outside world, in order. *)
Inductive call :=
| CallSTT                       (** the transcription function is called *)
| CallLLM (prompt : list turn)  (** the chat model is called with these messages *)
| CallTTS (text : string)       (** [tts_elevenlabs(text)] is called *)
| PostTTS (text : string).      (** [tts_elevenlabs] sends its HTTP request *)

Inductive outcome (A : Type) :=
| Ok (x : A)
| Raise (msg : string).
Arguments Ok {A} x.
Arguments Raise {A} msg.

(** A request shares one [CancelToken] between the primary assistant and the
    fallback pipeline.  The flag is read at four checkpoints, in program order:
    1 = primary after STT, 2 = primary after the LLM, 3 = fallback after STT,
    4 = fallback after the LLM.  [Some k] means the token was signalled (by
    /alina/cancel) before checkpoint [k]; once signalled it stays signalled. *)
Definition token_obs := option nat.

Definition cancelled_at (sig : token_obs) (k : nat) : bool :=
  match sig with Some j => Nat.leb j k | None => false end.

(** The JSON dict returned by [handle_user_audio] / [_fallback_pipeline].
    [r_audio] holds the bytes whose base64 is sent as [audio_base64];
    [r_cancelled] is the optional top-level key ["cancelled"];
    [r_timings_cancelled] is [timings["cancelled"]]. *)
Record voice_result := mk_result {
  r_transcript : py_val;
  r_answer : string;
  r_audio : list Byte.byte;
  r_history : list turn;
  r_cancelled : option bool;
  r_timings_cancelled : bool;
  r_fallback_reason : option string  (** [timings["assistant_failed_fallback"]] *)
}.

(** [tts_elevenlabs] (backend/elevenlabs_client.py):
<<
    text = (text or '').strip()
    if not text:
        return b''
    ... resp = _session.post(url, ..., json={"text": text, ...})
>>
    It either returns without a request, or posts the stripped text. *)
Inductive tts_step :=
| TtsReturn (b : list Byte.byte)
| TtsPost (text : string).

Definition tts_elevenlabs (text : string) : tts_step :=
  let t := Py.strip text in
  if Py.str_truthy t then TtsPost t else TtsReturn [].

(** Running [tts_elevenlabs] against the network outcome [net]. *)
Definition run_tts (net : option (list Byte.byte)) (text : string)
  : outcome (list Byte.byte) * list call :=
  match tts_elevenlabs text with
  | TtsReturn b => (Ok b, [CallTTS text])
  | TtsPost t =>
      (match net with Some b => Ok b | None => Raise "ElevenLabs HTTP error" end,
       [CallTTS text; PostTTS t])
  end.

(** Outcomes of the adapters of one pipeline ([None] = the call raised). *)
Record adapters := mk_adapters {
  stt_out : option py_val;
  llm_out : option string;
  tts_net : option (list Byte.byte)
}.

(* ------------------------------------------------------------------ *)
(** ** [AlinaAssistant.handle_user_audio] *)

Definition cancel_result (transcript : py_val) (h : list turn) : voice_result :=
  mk_result transcript EmptyString [] h (Some true) false None.

Definition handle_user_audio (a : alina_assistant) (io : adapters) (sig : token_obs)
  : alina_assistant * outcome voice_result * list call :=
  match stt_out io with
  | None => (a, Raise "STT failed", [CallSTT])
  | Some transcript =>
      if cancelled_at sig 1 then (a, Ok (cancel_result transcript (history a)), [CallSTT])
      else if negb (py_truthy transcript)
              || negb (Py.str_truthy (Py.strip (py_str transcript)))
      then (a, Raise "Empty transcript from STT", [CallSTT])
      else
        let a1 := append_trim a (mk_turn User (Py.strip (py_str transcript))) in
        let tr1 := [CallSTT; CallLLM (history a1)] in
        match llm_out io with
        | None => (a1, Raise "LLM failed", tr1)
        | Some answer0 =>
            if cancelled_at sig 2 then (a1, Ok (cancel_result transcript (history a1)), tr1)
            else
              let answer := Py.strip answer0 in
              let a2 := append_trim a1 (mk_turn Assistant answer) in
              let '(audio, tr2) := run_tts (tts_net io) answer in
              match audio with
              | Raise m => (a2, Raise m, tr1 ++ tr2)
              | Ok b => (a2, Ok (mk_result transcript answer b (history a2) None false None),
                         tr1 ++ tr2)
              end
        end
  end.

(* ------------------------------------------------------------------ *)
(** ** [_fallback_pipeline] (alina_server.py) *)

Definition _fallback_system_prompt (lang : string) : string :=
  if decide (lang = "th") then "You are Alina, a helpful voice assistant. Reply in Thai language only."
  else if decide (lang = "en") then "You are Alina, a helpful voice assistant. Reply in English."
  else "Alina (ru) fallback prompt".

(** Its transcription is the awaited [stt_client.transcribe], so [stt_out]
    carries a string here.  The optional [timings["assistant_import_error"]]
    entry is not modelled. *)
Definition _fallback_pipeline (lang : string) (io : adapters) (sig : token_obs)
  : outcome voice_result * list call :=
  match stt_out io with
  | None => (Raise "STT failed", [CallSTT])
  | Some tv =>
      let transcript := py_str tv in
      if cancelled_at sig 3 then
        (Ok (mk_result (PStr transcript) EmptyString [] [] None true None), [CallSTT])
      else
        let messages := [mk_turn System (_fallback_system_prompt lang);
                         mk_turn User transcript] in
        let tr1 := [CallSTT; CallLLM messages] in
        match llm_out io with
        | None => (Raise "LLM failed", tr1)
        | Some answer =>
            if cancelled_at sig 4 then
              (Ok (mk_result (PStr transcript) answer []
                     (messages ++ [mk_turn Assistant answer]) None true None), tr1)
            else
              let '(audio, tr2) := run_tts (tts_net io) answer in
              match audio with
              | Raise m => (Raise m, tr1 ++ tr2)
              | Ok b => (Ok (mk_result (PStr transcript) answer b
                               (messages ++ [mk_turn Assistant answer]) None false None),
                      tr1 ++ tr2)
              end
        end
  end.

(* ------------------------------------------------------------------ *)
(** ** [active_cancels]: the per-session cancel tokens of alina_server.py *)

(** [CancelToken] objects live in a heap ([tokens]: object id -> [cancelled]);
    [active_cancels] maps a session id to the object installed for it. *)
Record cancel_store := mk_store {
  active_cancels : gmap string nat;
  tokens : gmap nat bool;
  next_tok : nat
}.

Definition empty_store : cancel_store := mk_store ∅ ∅ 0.

(** [cancel_token = CancelToken(False); active_cancels[session_id] = cancel_token] *)
Definition begin_run (sid : string) (st : cancel_store) : nat * cancel_store :=
  let t := next_tok st in
  (t, mk_store (<[sid := t]> (active_cancels st)) (<[t := false]> (tokens st)) (S t)).

(** [finally: active_cancels.pop(session_id, None)] *)
Definition end_run (sid : string) (st : cancel_store) : cancel_store :=
  mk_store (delete sid (active_cancels st)) (tokens st) (next_tok st).

(** [alina_cancel]: a [CancelToken] instance is always truthy. *)
Definition alina_cancel (sid : string) (st : cancel_store) : string * cancel_store :=
  match active_cancels st !! sid with
  | Some t => ("cancelled", mk_store (active_cancels st) (<[t := true]> (tokens st)) (next_tok st))
  | None => ("not_found", st)
  end.

(** Request handlers interleave at their [await]s (the fallback pipeline
    suspends in [await transcribe(...)] between [begin_run] and [end_run]), so
    the store sees an arbitrary interleaving of these events. *)
Inductive store_event :=
| EvBegin (sid : string)
| EvEnd (sid : string)
| EvCancel (sid : string).

Definition store_step (st : cancel_store) (e : store_event) : cancel_store :=
  match e with
  | EvBegin sid => snd (begin_run sid st)
  | EvEnd sid => end_run sid st
  | EvCancel sid => snd (alina_cancel sid st)
  end.

Definition run_events (st : cancel_store) (es : list store_event) : cancel_store :=
  fold_left store_step es st.

(* ------------------------------------------------------------------ *)
(** ** [alina_voice] (POST /alina/voice) *)

(** Module-level state of alina_server.py. *)
Record server := mk_server {
  assistant_ru : option alina_assistant;
  assistant_en : option alina_assistant;
  assistant_th : option alina_assistant;
  cancels : cancel_store
}.

(** The import-time block: [AlinaAssistant(mode=...)] with the default
    [max_history_turns=8], or [None] for all three if the import failed. *)
Definition init_server (assistant_import_ok : bool) : server :=
  if assistant_import_ok then
    mk_server (Some (new_assistant "ru" 8)) (Some (new_assistant "en" 8))
              (Some (new_assistant "th" 8)) empty_store
  else mk_server None None None empty_store.

Definition _pick_lang_assistant (srv : server) (lang : string) : option alina_assistant :=
  if decide (lang = "en") then assistant_en srv
  else if decide (lang = "th") then assistant_th srv
  else assistant_ru srv.

(** Writing back the (mutated) object that [_pick_lang_assistant] returned. *)
Definition store_lang_assistant (srv : server) (lang : string) (a : alina_assistant) : server :=
  if decide (lang = "en") then mk_server (assistant_ru srv) (Some a) (assistant_th srv) (cancels srv)
  else if decide (lang = "th") then mk_server (assistant_ru srv) (assistant_en srv) (Some a) (cancels srv)
  else mk_server (Some a) (assistant_en srv) (assistant_th srv) (cancels srv).

Definition set_cancels (srv : server) (st : cancel_store) : server :=
  mk_server (assistant_ru srv) (assistant_en srv) (assistant_th srv) st.

(** What one request meets: the primary's and the fallback's adapter
    outcomes, the token signal, and the uuid minted for an empty session id. *)
Record request_env := mk_env {
  primary_io : adapters;
  fallback_io : adapters;
  signal : token_obs;
  minted_id : string
}.

Inductive response :=
| HTTP200 (body : voice_result) (session_id : string)
| HTTPError (status : Z) (detail : string).

(** [JSONResponse(content=result)] renders with [json.dumps]; a coroutine
    object in ["transcript"] is not serialisable and raises [TypeError]. *)
Definition json_ok (r : voice_result) : bool :=
  match r_transcript r with PStr _ => true | PCoro => false end.

Definition with_fallback_reason (r : voice_result) (e : string) : voice_result :=
  mk_result (r_transcript r) (r_answer r) (r_audio r) (r_history r) (r_cancelled r)
            (r_timings_cancelled r) (Some e).

(** The body of the [try] block: primary assistant, else fallback. *)
Definition voice_pipeline (srv : server) (lang : string) (env : request_env)
  : server * outcome voice_result * list call :=
  let fallback_with (e : string) (srv' : server) (tr : list call) :=
    let '(fb, tr') := _fallback_pipeline lang (fallback_io env) (signal env) in
    match fb with
    | Ok d => (srv', Ok (with_fallback_reason d e), tr ++ tr')
    | Raise m => (srv', Raise m, tr ++ tr')
    end in
  match assistant_ru srv with
  | Some _ =>
      match _pick_lang_assistant srv lang with
      | None => fallback_with "Assistant not initialised" srv []
      | Some a =>
          let '(a', r, tr) := handle_user_audio a (primary_io env) (signal env) in
          let srv' := store_lang_assistant srv lang a' in
          match r with
          | Ok d => (srv', Ok d, tr)
          | Raise e => fallback_with e srv' tr
          end
      end
  | None =>
      let '(fb, tr) := _fallback_pipeline lang (fallback_io env) (signal env) in
      (srv, fb, tr)
  end.

Definition alina_voice (srv : server) (audio : list Byte.byte) (lang session_id : string)
    (env : request_env) : server * response * list call :=
  match audio with
  | [] => (srv, HTTPError 400 "Empty audio file", [])
  | _ :: _ =>
      let sid := if Py.str_truthy session_id then session_id else minted_id env in
      let srv1 := set_cancels srv (snd (begin_run sid (cancels srv))) in
      let '(srv2, r, tr) := voice_pipeline srv1 lang env in
      let resp := match r with
                  | Ok d => if json_ok d then HTTP200 d sid else HTTPError 500 "Alina error"
                  | Raise m => HTTPError 500 "Alina error"
                  end in
      (set_cancels srv2 (end_run sid (cancels srv2)), resp, tr)
  end.

(* ------------------------------------------------------------------ *)
(** ** Helper definitions for statements *)

(** The last [n] elements of [l], in order. *)
Definition last_n {A} (n : nat) (l : list A) : list A := drop (length l - n) l.

(** Every character is Python whitespace. *)
Fixpoint all_space (s : string) : bool :=
  match s with
  | EmptyString => true
  | String c s' => Py.isspace c && all_space s'
  end.

(** A request reaches [_fallback_pipeline]: no primary assistant, or the
    primary assistant raised. *)
Definition reaches_fallback (srv : server) (lang : string) (env : request_env) : bool :=
  match assistant_ru srv with
  | None => true
  | Some _ =>
      match _pick_lang_assistant srv lang with
      | None => true
      | Some a =>
          match handle_user_audio a (primary_io env) (signal env) with
          | (_, Raise _, _) => true
          | _ => false
          end
      end
  end.

(* ------------------------------------------------------------------ *)
(** ** Language slots of alina_server.py *)

(** The three module-level assistants [_pick_lang_assistant] chooses from. *)
Inductive lang_slot := SlotRu | SlotEn | SlotTh.

Definition slot_of (lang : string) : lang_slot :=
  if decide (lang = "en") then SlotEn
  else if decide (lang = "th") then SlotTh
  else SlotRu.

Definition slot_assistant (srv : server) (k : lang_slot) : option alina_assistant :=
  match k with
  | SlotRu => assistant_ru srv
  | SlotEn => assistant_en srv
  | SlotTh => assistant_th srv
  end.

(** The session id an event of the store is about. *)
Definition event_session (e : store_event) : string :=
  match e with EvBegin s | EvEnd s | EvCancel s => s end.

(** Every [CancelToken] object id in use was allocated before [next_tok]. *)
Definition store_wf (st : cancel_store) : Prop :=
  (forall t b, tokens st !! t = Some b -> (t < next_tok st)%nat) /\
  (forall s t, active_cancels st !! s = Some t -> (t < next_tok st)%nat).

#[global] Instance role_eq_dec : EqDecision role.
Proof. solve_decision. Defined.

(** A history body made of (user, assistant) pairs. *)
Fixpoint pairs_ok (l : list turn) : bool :=
  match l with
  | [] => true
  | [_] => false
  | u :: x :: l' =>
      bool_decide (role_of u = User) && bool_decide (role_of x = Assistant) && pairs_ok l'
  end.

(* ------------------------------------------------------------------ *)
(** ** The streaming LLM path: [chat_with_alina_stream] (llm_client.py) and
       [AlinaAssistant._llm_streaming] (alina.py) *)

(** One event of the OpenAI stream: [delta] is [event.choices[0].delta.content]
    ([None] when it is [None] or the lookup raised), [slow] is the value of
    [time.time() - last_yield > 15] at the end of that iteration. *)
Record stream_event := mk_sev { delta : option string; slow : bool }.

(** The stream as it is iterated: [None] is an element whose retrieval raises
    (a network error in the middle of the stream).  Exceptions of the SDK are
    taken not to be [TypeError], so the [except TypeError] retry of
    [_llm_streaming] is not entered.

    Reads of [cancel_token.is_cancelled()] / [cancel_token.cancelled] are
    numbered 0, 1, 2, ... in program order; the token is shared with
    [/alina/cancel], so [Some j] means that reads number [j] and later see
    [True] (a token is never reset). *)
Fixpoint stream_loop (sig : token_obs) (k : nat) (evs : list (option stream_event))
    (chunks : list string) : option (list string * nat) :=
  match evs with
  | [] => Some (chunks, k)
  | None :: _ => None
  | Some ev :: evs' =>
      if cancelled_at sig k then Some (chunks, S k)
      else
        let chunks' := match delta ev with
                       | Some d => if Py.str_truthy d then chunks ++ [d] else chunks
                       | None => chunks
                       end in
        if slow ev then
          if cancelled_at sig (S k) then Some (chunks', S (S k))
          else stream_loop sig (S (S k)) evs' chunks'
        else stream_loop sig (S k) evs' chunks'
  end.

(** [''.join(chunks)] *)
Fixpoint join_str (l : list string) : string :=
  match l with
  | [] => EmptyString
  | s :: l' => String.append s (join_str l')
  end.

(** [chat_with_alina_stream(messages, cancel_token)]: the outcome, whether the
    completion request was sent, and the number of the next token read.
    [net] is [None] when [client.chat.completions.create] raises. *)
Definition chat_with_alina_stream (sig : token_obs) (net : option (list (option stream_event)))
  : outcome string * bool * nat :=
  if cancelled_at sig 0 then (Ok EmptyString, false, 1%nat)
  else
    match net with
    | None => (Raise "OpenAI streaming completion failed", true, 1%nat)
    | Some evs =>
        match stream_loop sig 1%nat evs [] with
        | None => (Raise "OpenAI stream error", true, 1%nat)
        | Some (chunks, k) => (Ok (Py.strip (join_str chunks)), true, k)
        end
    end.

(** The loop of [_llm_streaming] over the returned [str], one character per
    iteration; a one-character string is truthy. *)
Fixpoint char_loop (sig : token_obs) (k : nat) (s : string) : string :=
  match s with
  | EmptyString => EmptyString
  | String c s' => if cancelled_at sig k then EmptyString else String c (char_loop sig (S k) s')
  end.

(** [_llm_streaming(messages, cancel_token)]: the answer and whether the
    completion request was sent. *)
Definition _llm_streaming (sig : token_obs) (net : option (list (option stream_event)))
  : outcome string * bool :=
  match chat_with_alina_stream sig net with
  | (Raise m, req, _) => (Raise m, req)
  | (Ok s, req, k) => (Ok (char_loop sig k s), req)
  end.

(** The truthy deltas of a stream, in order. *)
Fixpoint truthy_deltas (evs : list stream_event) : list string :=
  match evs with
  | [] => []
  | ev :: evs' =>
      match delta ev with
      | Some d => if Py.str_truthy d then d :: truthy_deltas evs' else truthy_deltas evs'
      | None => truthy_deltas evs'
      end
  end.



(** The right half of [str.strip()]: [Py.strip s = rstrip (Py.lstrip s)]. *)
Definition rstrip (s : string) : string :=
  Py.rev_str (Py.lstrip (Py.rev_str s EmptyString)) EmptyString.

(* ------------------------------------------------------------------ *)
(** ** [_b64] (alina.py): [base64.b64encode(b).decode("utf-8")] *)

Definition b64_alphabet : string :=
  "ABCDEFGHIJKLMNOPQRSTUVWXYZabcdefghijklmnopqrstuvwxyz0123456789+/".

(** The padding character [=]. *)
Definition b64_pad : Ascii.ascii := Ascii.ascii_of_nat 61.

(** The character of the low six bits of [n]. *)
Definition b64_char (n : Z) : Ascii.ascii :=
  match String.get (Z.to_nat (Z.land n 63)) b64_alphabet with Some c => c | None => b64_pad end.

Definition byte_z (x : Byte.byte) : Z := Z.of_N (Byte.to_N x).

(** Each group of three bytes (24 bits) gives four characters of six bits;
    a final group of one or two bytes is zero-filled and padded with [=]. *)
Fixpoint _b64 (b : list Byte.byte) : string :=
  match b with
  | [] => EmptyString
  | [x] =>
      let n := Z.shiftl (byte_z x) 16 in
      String (b64_char (Z.shiftr n 18)) (String (b64_char (Z.shiftr n 12))
        (String b64_pad (String b64_pad EmptyString)))
  | [x; y] =>
      let n := Z.lor (Z.shiftl (byte_z x) 16) (Z.shiftl (byte_z y) 8) in
      String (b64_char (Z.shiftr n 18)) (String (b64_char (Z.shiftr n 12))
        (String (b64_char (Z.shiftr n 6)) (String b64_pad EmptyString)))
  | x :: y :: z :: rest =>
      let n := Z.lor (Z.lor (Z.shiftl (byte_z x) 16) (Z.shiftl (byte_z y) 8)) (byte_z z) in
      String (b64_char (Z.shiftr n 18)) (String (b64_char (Z.shiftr n 12))
        (String (b64_char (Z.shiftr n 6)) (String (b64_char n) (_b64 rest))))
  end.

(* ------------------------------------------------------------------ *)
(** ** [_normalize_lang] (assistant/stt_client.py) *)

(** [str.lower()] on ASCII. *)
Definition ascii_lower (c : Ascii.ascii) : Ascii.ascii :=
  let n := Ascii.nat_of_ascii c in
  if (Nat.leb 65 n && Nat.leb n 90)%bool then Ascii.ascii_of_nat (n + 32) else c.

Fixpoint py_lower (s : string) : string :=
  match s with
  | EmptyString => EmptyString
  | String c s' => String (ascii_lower c) (py_lower s')
  end.

(** [lang] is [None] for Python's [None]. *)
Definition _normalize_lang (lang : option string) : string :=
  match lang with
  | None => "ru"
  | Some l =>
      if negb (Py.str_truthy l) then "ru"
      else
        let l := Py.strip (py_lower l) in
        if decide (l = "ru" \/ l = "ru-ru") then "ru"
        else if decide (l = "en" \/ l = "en-us" \/ l = "en-gb") then "en"
        else if decide (l = "th" \/ l = "th-th") then "th"
        else l
  end.

(* ------------------------------------------------------------------ *)
(** ** General lemmas *)

Lemma lstrip_all_space (s : string) : all_space s = true -> Py.lstrip s = EmptyString.
Proof.
  induction s as [|c s IH]; simpl; [done|].
  intros H. apply andb_prop in H as [Hc Hs]. rewrite Hc. auto.
Qed.

Lemma strip_all_space (s : string) : all_space s = true -> Py.strip s = EmptyString.
Proof. intros H. unfold Py.strip. rewrite (lstrip_all_space s H). reflexivity. Qed.

Lemma all_space_lstrip (s : string) : all_space (Py.lstrip s) = all_space s.
Proof.
  induction s as [|c s IH]; simpl; [done|].
  destruct (Py.isspace c) eqn:Hc; simpl; [done|by rewrite Hc].
Qed.

Lemma all_space_rev_str (s acc : string) :
  all_space (Py.rev_str s acc) = all_space s && all_space acc.
Proof.
  revert acc. induction s as [|c s IH]; intros acc; simpl; [done|].
  rewrite IH. simpl. destruct (Py.isspace c), (all_space s), (all_space acc); done.
Qed.

Lemma all_space_strip (s : string) : all_space (Py.strip s) = all_space s.
Proof.
  unfold Py.strip. rewrite all_space_rev_str, all_space_lstrip, all_space_rev_str,
    all_space_lstrip. simpl. by rewrite !andb_true_r.
Qed.

Lemma truthy_not_all_space (s : string) : all_space s = false -> Py.str_truthy s = true.
Proof. destruct s; simpl; done. Qed.

Lemma last_n_app {A} (n : nat) (pre sfx : list A) :
  (length sfx <= n)%nat -> exists pre', last_n n (pre ++ sfx) = pre' ++ sfx.
Proof.
  intros Hn. unfold last_n. rewrite length_app.
  exists (drop (length pre + length sfx - n) pre).
  apply drop_app_le. lia.
Qed.

(** For [max_history_turns >= 1], [_trim_history] keeps the first entry and
    the last [2 * max_history_turns] entries after it, in order. *)
Lemma trim_history_keeps_last (a : alina_assistant) (s : turn) (rest : list turn) :
  1 <= max_history_turns a -> history a = s :: rest ->
  history (_trim_history a) = s :: last_n (Z.to_nat (2 * max_history_turns a)) rest.
Proof.
  intros HN Hh. unfold _trim_history, last_n. rewrite Hh. simpl length.
  destruct (Z.leb_spec (Z.of_nat (S (length rest))) 1) as [H1|H1].
  - rewrite Hh. destruct rest; simpl in *; [reflexivity|lia].
  - destruct (Z.gtb_spec (Z.of_nat (S (length rest))) (1 + max_history_turns a * 2)) as [H2|H2].
    + simpl. f_equal. unfold Py.slice_from. simpl length.
      destruct (Z.ltb_spec (- (1 + max_history_turns a * 2 - 1)) 0) as [H3|H3]; [|lia].
      replace (Z.to_nat (Z.max 0 (Z.of_nat (S (length rest)) + - (1 + max_history_turns a * 2 - 1))))
        with (S (length rest - Z.to_nat (2 * max_history_turns a)))%nat by lia.
      reflexivity.
    + rewrite Hh. f_equal.
      replace (length rest - Z.to_nat (2 * max_history_turns a))%nat with 0%nat by lia.
      reflexivity.
Qed.

Lemma append_trim_keeps_suffix (a : alina_assistant) (s : turn) (pre sfx : list turn) (t : turn) :
  1 <= max_history_turns a -> history a = s :: pre ++ sfx ->
  (length sfx + 1 <= Z.to_nat (2 * max_history_turns a))%nat ->
  exists pre', history (append_trim a t) = s :: pre' ++ sfx ++ [t].
Proof.
  intros HN Hh Hlen. unfold append_trim.
  rewrite (trim_history_keeps_last _ s ((pre ++ sfx) ++ [t])); simpl; [|done|by rewrite Hh].
  rewrite <- app_assoc.
  destruct (last_n_app (Z.to_nat (2 * max_history_turns a)) pre (sfx ++ [t])) as [pre' Hp].
  - rewrite length_app. simpl. lia.
  - exists pre'. by rewrite Hp.
Qed.

(* ------------------------------------------------------------------ *)
(** ** Claims *)

(** Fixed inputs used by the concrete statements. *)
Definition ru8 : alina_assistant := new_assistant "ru" 8.
Definition sys_ru : turn := mk_turn System (_system_prompt "ru").

(** C10: for every text that is empty or consists only of (Python) whitespace,
    [tts_elevenlabs] returns [b''] without sending its HTTP request. *)
Lemma tts_elevenlabs_blank_no_request (text : string) :
  all_space text = true -> tts_elevenlabs text = TtsReturn [].
Proof.
  intros H. unfold tts_elevenlabs. rewrite (strip_all_space text H). reflexivity.
Qed.

Lemma tts_elevenlabs_blank_no_request_witness :
  all_space " 	 " = true /\ tts_elevenlabs " 	 " = TtsReturn [].
Proof.
  split; [reflexivity|]. apply tts_elevenlabs_blank_no_request. reflexivity.
Defined.

(** C8 (code bug): with [max_history_turns = 0], [keep - 1 = 0] and the slice
    [self.history[-0:]] is the whole history, so [_trim_history] keeps every
    turn and duplicates the system turn: one user turn leaves two entries
    after the head (bound [2 * 0 = 0] exceeded), and each further append grows
    the history by two. *)
Lemma trim_history_zero_turns_unbounded :
  let a0 := new_assistant "ru" 0 in
  let a1 := append_trim a0 (mk_turn User "hi") in
  let a2 := append_trim a1 (mk_turn Assistant "hello") in
  history a1 = [sys_ru; sys_ru; mk_turn User "hi"] /\
  length (tail (history a1)) = 2%nat /\
  length (tail (history a2)) = 4%nat.
Proof. vm_compute. repeat split. Qed.

(** C1 (code bug): a primary-assistant run on a fresh history whose LLM call
    raises, or whose token is signalled when the LLM returns, leaves the user
    turn appended alone: the history after the system turn is [[user]], of odd
    length. *)
Lemma orphan_user_turn_after_run :
  (let '(a', r, _) := handle_user_audio ru8 (mk_adapters (Some (PStr "hello")) None None) None in
   r = Raise "LLM failed" /\ map role_of (tail (history a')) = [User]) /\
  (let '(a', r, _) := handle_user_audio ru8
        (mk_adapters (Some (PStr "hello")) (Some "hi there") (Some [Byte.x01])) (Some 2%nat) in
   (exists d, r = Ok d /\ r_cancelled d = Some true) /\
   map role_of (tail (history a')) = [User]).
Proof.
  vm_compute. split; [split; reflexivity|].
  split; [|reflexivity]. eexists. split; reflexivity.
Qed.

(** C4 (code bug): when the token is signalled as the LLM returns "hi there",
    the primary assistant returns [answer = ''] (not the generated reply) and
    has already committed the user turn; the fallback pipeline, at the same
    point, returns the reply. *)
Lemma post_generation_cancel_primary :
  let io := mk_adapters (Some (PStr "hello")) (Some "hi there") (Some [Byte.x01]) in
  handle_user_audio ru8 io (Some 2%nat) =
    (set_history ru8 [sys_ru; mk_turn User "hello"],
     Ok (mk_result (PStr "hello") EmptyString [] [sys_ru; mk_turn User "hello"] (Some true) false None),
     [CallSTT; CallLLM [sys_ru; mk_turn User "hello"]]) /\
  (exists d tr, _fallback_pipeline "ru" io (Some 4%nat) = (Ok d, tr) /\ r_answer d = "hi there").
Proof.
  vm_compute. split; [reflexivity|]. do 2 eexists. split; reflexivity.
Qed.

(** C2 (counterexample): request 1 on session "s" installs token 0 and is
    suspended in its pipeline; request 2 on "s" installs token 1.  Token 0 is
    replaced in [active_cancels] while still unsignalled. *)
Lemma begin_run_replaces_unsignalled :
  let st := run_events empty_store [EvBegin "s"; EvBegin "s"] in
  active_cancels st !! "s" = Some 1%nat /\ tokens st !! 0%nat = Some false.
Proof. vm_compute. split; reflexivity. Qed.

(** C2 (as the code does it): starting a run installs a fresh unsignalled
    token for the session, overwriting any previous entry, and leaves the
    flag of every other token object unchanged (it signals none). *)
Lemma begin_run_installs_without_signalling (sid : string) (st : cancel_store) :
  let '(t, st') := begin_run sid st in
  active_cancels st' !! sid = Some t /\ tokens st' !! t = Some false /\
  (forall sid', sid' <> sid -> active_cancels st' !! sid' = active_cancels st !! sid') /\
  (forall t', t' <> t -> tokens st' !! t' = tokens st !! t').
Proof.
  simpl. split; [by rewrite lookup_insert_eq|].
  split; [by rewrite lookup_insert_eq|].
  split; intros; by rewrite lookup_insert_ne.
Qed.

(** C6 (counterexample): run 1 on "s" is superseded by run 2 and then
    finishes; its [finally] pops the entry of run 2, so the session has no
    active token while run 2 is still running and /alina/cancel answers
    "not_found". *)
Lemma end_run_clears_newer_token :
  let st := run_events empty_store [EvBegin "s"; EvBegin "s"; EvEnd "s"] in
  active_cancels st !! "s" = None /\ fst (alina_cancel "s" st) = "not_found".
Proof. vm_compute. split; reflexivity. Qed.

(** C6 (as the code does it): finishing a run removes the session's entry
    whichever token it holds, and touches no other session and no token. *)
Lemma end_run_pops_unconditionally (sid : string) (st : cancel_store) :
  active_cancels (end_run sid st) !! sid = None /\
  (forall sid', sid' <> sid -> active_cancels (end_run sid st) !! sid' = active_cancels st !! sid') /\
  tokens (end_run sid st) = tokens st.
Proof.
  simpl. split; [by rewrite lookup_delete_eq|].
  split; [intros; by rewrite lookup_delete_ne|reflexivity].
Qed.

(** C5 (counterexample): without a primary assistant, a request whose
    transcription returns '' runs the fallback pipeline, which calls the chat
    model with an empty user message and then [tts_elevenlabs] on the reply. *)
Lemma silence_reaches_llm_and_tts :
  let env := mk_env (mk_adapters None None None)
               (mk_adapters (Some (PStr EmptyString)) (Some "Sorry?") (Some [Byte.x02])) None "u1" in
  let '(_, resp, tr) := alina_voice (init_server false) [Byte.x01] "ru" "s1" env in
  tr = [CallSTT; CallLLM [mk_turn System (_fallback_system_prompt "ru"); mk_turn User EmptyString];
        CallTTS "Sorry?"; PostTTS "Sorry?"] /\
  resp = HTTP200 (mk_result (PStr EmptyString) "Sorry?" [Byte.x02]
                   [mk_turn System (_fallback_system_prompt "ru"); mk_turn User EmptyString;
                    mk_turn Assistant "Sorry?"] None false None) "s1".
Proof. vm_compute. split; reflexivity. Qed.

Lemma cancelled_at_mono (sig : token_obs) (j k : nat) :
  (j <= k)%nat -> cancelled_at sig k = false -> cancelled_at sig j = false.
Proof.
  destruct sig as [i|]; simpl; [|done].
  intros Hjk Hk. apply Nat.leb_gt in Hk. apply Nat.leb_gt. lia.
Qed.

Lemma primary_stt_raise_unchanged (a : alina_assistant) (io : adapters) (sig : token_obs) :
  stt_out io = None -> handle_user_audio a io sig = (a, Raise "STT failed", [CallSTT]).
Proof. intros H. unfold handle_user_audio. by rewrite H. Qed.

Lemma primary_blank_raise_unchanged (a : alina_assistant) (io : adapters) (sig : token_obs)
    (s : string) :
  stt_out io = Some (PStr s) -> all_space s = true -> cancelled_at sig 1 = false ->
  handle_user_audio a io sig = (a, Raise "Empty transcript from STT", [CallSTT]).
Proof.
  intros Hs Hb H1. unfold handle_user_audio. rewrite Hs, H1. simpl py_str.
  rewrite (strip_all_space s Hb). simpl. by rewrite orb_true_r.
Qed.

(** C5 (as the code does it): when the primary assistant's transcription
    returns an empty or blank string and the token is not signalled, it
    raises "Empty transcript from STT" before any LLM or TTS call and leaves
    the history unchanged; the fallback pipeline (run when there is no primary
    assistant or the primary raised) has no such check and, unless cancelled,
    calls the chat model with the blank transcript as user message and then
    [tts_elevenlabs] on the reply. *)
Lemma blank_transcript_behaviour (a : alina_assistant) (io io_fb : adapters) (sig : token_obs)
    (lang s ans : string) :
  stt_out io = Some (PStr s) -> stt_out io_fb = Some (PStr s) -> all_space s = true ->
  llm_out io_fb = Some ans -> cancelled_at sig 4 = false ->
  handle_user_audio a io sig = (a, Raise "Empty transcript from STT", [CallSTT]) /\
  exists r rest, _fallback_pipeline lang io_fb sig =
    (r, CallSTT :: CallLLM [mk_turn System (_fallback_system_prompt lang); mk_turn User s]
              :: CallTTS ans :: rest).
Proof.
  intros Hs Hfs Hb Hl H4. split.
  - apply (primary_blank_raise_unchanged a io sig s Hs Hb). apply (cancelled_at_mono sig 1 4); [lia|exact H4].
  - unfold _fallback_pipeline. rewrite Hfs, Hl, H4. simpl py_str.
    rewrite (cancelled_at_mono sig 3 4 ltac:(lia) H4).
    unfold run_tts. destruct (tts_elevenlabs ans) as [b|t].
    + eexists _, []. reflexivity.
    + destruct (tts_net io_fb); eexists _, [PostTTS t]; reflexivity.
Qed.

Lemma blank_transcript_behaviour_witness :
  let io := mk_adapters (Some (PStr " ")) (Some "Sorry?") None in
  (stt_out io = Some (PStr " ") /\ all_space " " = true /\ llm_out io = Some "Sorry?" /\
   cancelled_at None 4 = false) /\
  (handle_user_audio ru8 io None = (ru8, Raise "Empty transcript from STT", [CallSTT]) /\
   exists r rest, _fallback_pipeline "en" io None =
     (r, CallSTT :: CallLLM [mk_turn System (_fallback_system_prompt "en"); mk_turn User " "]
               :: CallTTS "Sorry?" :: rest)).
Proof.
  simpl. split; [repeat split|].
  apply (blank_transcript_behaviour ru8 _ _ None "en" " " "Sorry?"); reflexivity.
Defined.

(** C7 (counterexample): transcription and reply succeed, the ElevenLabs
    request fails; the run raises, and the history has gained the new
    user/assistant pair. *)
Lemma tts_failure_keeps_committed_pair :
  let '(a', r, _) := handle_user_audio ru8
        (mk_adapters (Some (PStr "hello")) (Some "hi there") None) None in
  r = Raise "ElevenLabs HTTP error" /\
  history a' = [sys_ru; mk_turn User "hello"; mk_turn Assistant "hi there"] /\
  history a' <> history ru8.
Proof. vm_compute. split; [reflexivity|]. split; [reflexivity|discriminate]. Qed.

(** C7 (as the code does it): a primary-assistant run that raises before the
    user turn is appended (the transcription call raises, or it returns an
    empty or blank string) leaves the history unchanged; a run whose
    synthesis request fails after the reply was generated keeps the newly
    committed, trimmed user/assistant pair. *)
Lemma primary_failure_history (a : alina_assistant) (io : adapters) (sig : token_obs) :
  (stt_out io = None ->
     exists m tr, handle_user_audio a io sig = (a, Raise m, tr)) /\
  (forall s, stt_out io = Some (PStr s) -> all_space s = true -> cancelled_at sig 1 = false ->
     exists m tr, handle_user_audio a io sig = (a, Raise m, tr)) /\
  (forall v ans, stt_out io = Some v ->
     py_truthy v && Py.str_truthy (Py.strip (py_str v)) = true ->
     llm_out io = Some ans -> all_space ans = false -> tts_net io = None ->
     cancelled_at sig 2 = false ->
     exists m tr, handle_user_audio a io sig =
       (append_trim (append_trim a (mk_turn User (Py.strip (py_str v))))
                    (mk_turn Assistant (Py.strip ans)), Raise m, tr)).
Proof.
  split; [|split].
  - intros H. do 2 eexists. by apply primary_stt_raise_unchanged.
  - intros s Hs Hb H1. do 2 eexists. by apply (primary_blank_raise_unchanged a io sig s).
  - intros v ans Hs Hv Hl Hb Ht H2. unfold handle_user_audio.
    rewrite Hs, Hl, H2, (cancelled_at_mono sig 1 2 ltac:(lia) H2).
    apply andb_prop in Hv as [Hv1 Hv2]. rewrite Hv1, Hv2. simpl.
    unfold run_tts, tts_elevenlabs.
    assert (Hstrip : Py.str_truthy (Py.strip (Py.strip ans)) = true).
    { apply truthy_not_all_space. by rewrite !all_space_strip. }
    rewrite Hstrip, Ht. do 2 eexists. reflexivity.
Qed.

Lemma primary_failure_history_witness :
  let io := mk_adapters (Some (PStr "hello")) (Some "hi there") None in
  (stt_out io = Some (PStr "hello") /\ llm_out io = Some "hi there" /\ tts_net io = None) /\
  (exists m tr, handle_user_audio ru8 io None =
     (append_trim (append_trim ru8 (mk_turn User "hello")) (mk_turn Assistant "hi there"),
      Raise m, tr)) /\
  (exists m tr, handle_user_audio ru8 (mk_adapters None None None) None = (ru8, Raise m, tr)) /\
  (exists m tr, handle_user_audio ru8 (mk_adapters (Some (PStr " ")) None None) None =
     (ru8, Raise m, tr)).
Proof.
  simpl. split; [repeat split|]. split; [|split].
  - apply (proj2 (proj2 (primary_failure_history ru8
                           (mk_adapters (Some (PStr "hello")) (Some "hi there") None) None))
             (PStr "hello") "hi there"); reflexivity.
  - apply (proj1 (primary_failure_history ru8 (mk_adapters None None None) None)). reflexivity.
  - apply (proj1 (proj2 (primary_failure_history ru8 (mk_adapters (Some (PStr " ")) None None) None))
             " "); reflexivity.
Defined.

(** C9 helpers. *)
Lemma pick_set_cancels (srv : server) (st : cancel_store) (lang : string) :
  _pick_lang_assistant (set_cancels srv st) lang = _pick_lang_assistant srv lang.
Proof. unfold _pick_lang_assistant. by repeat destruct decide. Qed.

Lemma reaches_fallback_set_cancels (srv : server) (st : cancel_store) (lang : string)
    (env : request_env) :
  reaches_fallback (set_cancels srv st) lang env = reaches_fallback srv lang env.
Proof. unfold reaches_fallback. rewrite pick_set_cancels. reflexivity. Qed.

Lemma fallback_json_ok (lang : string) (io : adapters) (sig : token_obs) (d : voice_result)
    (tr : list call) :
  _fallback_pipeline lang io sig = (Ok d, tr) -> json_ok d = true.
Proof.
  unfold _fallback_pipeline.
  destruct (stt_out io); [|discriminate].
  destruct (cancelled_at sig 3); [by intros [= <- _]|].
  destruct (llm_out io); [|discriminate].
  destruct (cancelled_at sig 4); [by intros [= <- _]|].
  destruct (run_tts _ _) as [[b|m] tr2]; [by intros [= <- _]|discriminate].
Qed.

(** When the request reaches the fallback pipeline, the pipeline's outcome is
    the fallback's, up to the [assistant_failed_fallback] timing entry. *)
Lemma voice_pipeline_fallback (srv : server) (lang : string) (env : request_env) :
  reaches_fallback srv lang env = true ->
  exists srv' tr0 (f : voice_result -> voice_result),
    (forall d, r_transcript (f d) = r_transcript d /\ r_answer (f d) = r_answer d /\
               r_audio (f d) = r_audio d /\ r_timings_cancelled (f d) = r_timings_cancelled d) /\
    voice_pipeline srv lang env =
      (let '(fb, tr) := _fallback_pipeline lang (fallback_io env) (signal env) in
       (srv', match fb with Ok d => Ok (f d) | Raise m => Raise m end, tr0 ++ tr)).
Proof.
  unfold reaches_fallback, voice_pipeline. intros H.
  destruct (assistant_ru srv) as [ru|].
  - destruct (_pick_lang_assistant srv lang) as [a|].
    + destruct (handle_user_audio a (primary_io env) (signal env)) as [[a' r] tr] eqn:Hh.
      destruct r as [d|e]; [discriminate|].
      exists (store_lang_assistant srv lang a'), tr, (fun d => with_fallback_reason d e).
      split; [intros d; repeat split|].
      by destruct (_fallback_pipeline _ _ _) as [[d|m] tr'].
    + exists srv, [], (fun d => with_fallback_reason d "Assistant not initialised").
      split; [intros d; repeat split|].
      by destruct (_fallback_pipeline _ _ _) as [[d|m] tr'].
  - exists srv, [], (fun d => d). split; [done|].
    by destruct (_fallback_pipeline _ _ _) as [[d|m] tr'].
Qed.

(** C9 (counterexample): the primary assistant's LLM call raises, the
    fallback pipeline succeeds, and the request answers HTTP 200. *)
Lemma primary_adapter_failure_is_http_200 :
  let env := mk_env (mk_adapters (Some (PStr "hello")) None None)
               (mk_adapters (Some (PStr "hello")) (Some "hi") (Some [Byte.x02])) None "u1" in
  let '(_, resp, _) := alina_voice (init_server true) [Byte.x01] "en" "s1" env in
  exists d, resp = HTTP200 d "s1" /\ r_fallback_reason d = Some "LLM failed".
Proof. vm_compute. eexists. split; reflexivity. Qed.

(** C9 (as the code does it): for a request that reaches the fallback
    pipeline (no primary assistant, or the primary assistant raised, e.g.
    because one of its adapters failed), the response is HTTP 500 when the
    fallback pipeline raises and HTTP 200 carrying the fallback's result when
    it returns one; in particular a fallback run that is cancelled answers
    HTTP 200 with [timings["cancelled"] = True]. *)
Lemma fallback_http_surface (srv : server) (audio : list Byte.byte) (lang sid : string)
    (env : request_env) :
  audio <> [] -> reaches_fallback srv lang env = true ->
  (forall m tr, _fallback_pipeline lang (fallback_io env) (signal env) = (Raise m, tr) ->
     exists srv' tr', alina_voice srv audio lang sid env = (srv', HTTPError 500 "Alina error", tr')) /\
  (forall d tr, _fallback_pipeline lang (fallback_io env) (signal env) = (Ok d, tr) ->
     exists srv' d' id tr', alina_voice srv audio lang sid env = (srv', HTTP200 d' id, tr') /\
       r_answer d' = r_answer d /\ r_audio d' = r_audio d /\
       r_timings_cancelled d' = r_timings_cancelled d) /\
  (forall v, stt_out (fallback_io env) = Some v -> cancelled_at (signal env) 3 = true ->
     exists srv' d' id tr', alina_voice srv audio lang sid env = (srv', HTTP200 d' id, tr') /\
       r_answer d' = EmptyString /\ r_audio d' = [] /\ r_timings_cancelled d' = true).
Proof.
  intros Haudio Hreach.
  destruct audio as [|b audio]; [done|]. unfold alina_voice.
  set (sid' := if Py.str_truthy sid then sid else minted_id env).
  set (srv1 := set_cancels srv (snd (begin_run sid' (cancels srv)))).
  assert (Hr1 : reaches_fallback srv1 lang env = true)
    by (unfold srv1; by rewrite reaches_fallback_set_cancels).
  destruct (voice_pipeline_fallback srv1 lang env Hr1) as (srv' & tr0 & f & Hf & Hvp).
  rewrite Hvp.
  assert (Hok : forall d tr, _fallback_pipeline lang (fallback_io env) (signal env) = (Ok d, tr) ->
     exists srv'' d' id tr', (let '(srv2, r, tr1) :=
        (let '(fb, tr2) := _fallback_pipeline lang (fallback_io env) (signal env) in
         (srv', match fb with Ok d => Ok (f d) | Raise m => Raise m end, tr0 ++ tr2)) in
      (set_cancels srv2 (end_run sid' (cancels srv2)),
       match r with
       | Ok d => if json_ok d then HTTP200 d sid' else HTTPError 500 "Alina error"
       | Raise _ => HTTPError 500 "Alina error"
       end, tr1)) = (srv'', HTTP200 d' id, tr') /\
       r_answer d' = r_answer d /\ r_audio d' = r_audio d /\
       r_timings_cancelled d' = r_timings_cancelled d).
  { intros d tr Hfb. rewrite Hfb.
    destruct (Hf d) as (Ht & Ha & Hau & Hc).
    assert (Hj : json_ok (f d) = true).
    { unfold json_ok. rewrite Ht. apply (fallback_json_ok _ _ _ d tr Hfb). }
    rewrite Hj. do 4 eexists. split; [reflexivity|]. done. }
  split; [|split].
  - intros m tr Hfb. rewrite Hfb. do 2 eexists. reflexivity.
  - exact Hok.
  - intros v Hs H3.
    assert (Hfb : _fallback_pipeline lang (fallback_io env) (signal env) =
              (Ok (mk_result (PStr (py_str v)) EmptyString [] [] None true None), [CallSTT]))
      by (unfold _fallback_pipeline; by rewrite Hs, H3).
    destruct (Hok _ _ Hfb) as (srv'' & d' & id & tr' & Heq & Ha & Hau & Hc).
    exists srv'', d', id, tr'. split; [exact Heq|]. simpl in *. done.
Qed.

Lemma fallback_http_surface_witness :
  let env := mk_env (mk_adapters None None None)
               (mk_adapters (Some (PStr "hello")) None None) (Some 3%nat) "u1" in
  ([Byte.x01] <> [] /\ reaches_fallback (init_server false) "th" env = true) /\
  exists srv' d' id tr', alina_voice (init_server false) [Byte.x01] "th" "s1" env =
    (srv', HTTP200 d' id, tr') /\
    r_answer d' = EmptyString /\ r_audio d' = [] /\ r_timings_cancelled d' = true.
Proof.
  simpl. split; [split; [discriminate|reflexivity]|].
  apply (proj2 (proj2 (fallback_http_surface (init_server false) [Byte.x01] "th" "s1"
     (mk_env (mk_adapters None None None) (mk_adapters (Some (PStr "hello")) None None)
        (Some 3%nat) "u1") ltac:(discriminate) ltac:(reflexivity))) (PStr "hello"));
    reflexivity.
Defined.

(** C3 helpers. *)
Lemma max_turns_append_trim (a : alina_assistant) (t : turn) :
  max_history_turns (append_trim a t) = max_history_turns a.
Proof.
  unfold append_trim, _trim_history. simpl.
  repeat (case_match; simpl); reflexivity.
Qed.

Lemma pick_store_lang_assistant (srv : server) (lang : string) (a : alina_assistant) :
  _pick_lang_assistant (store_lang_assistant srv lang a) lang = Some a.
Proof.
  unfold _pick_lang_assistant, store_lang_assistant.
  destruct (decide (lang = "en")); simpl; [done|].
  destruct (decide (lang = "th")); simpl; [done|].
  destruct (decide (lang = "en")); [done|]. destruct (decide (lang = "th")); done.
Qed.

Lemma ru_store_lang_assistant (srv : server) (lang : string) (a : alina_assistant) :
  assistant_ru srv <> None -> assistant_ru (store_lang_assistant srv lang a) <> None.
Proof.
  unfold store_lang_assistant. intros H.
  destruct (decide (lang = "en")); [done|]. destruct (decide (lang = "th")); done.
Qed.

(** With a primary assistant, a request runs [handle_user_audio] on the
    assistant of its language, whatever its session id; the mutated object
    stays the assistant of that language. *)
Lemma alina_voice_primary (srv : server) (audio : list Byte.byte) (lang sid : string)
    (env : request_env) (a : alina_assistant) :
  audio <> [] -> assistant_ru srv <> None -> _pick_lang_assistant srv lang = Some a ->
  let '(srv', _, tr) := alina_voice srv audio lang sid env in
  let '(a', _, tr_a) := handle_user_audio a (primary_io env) (signal env) in
  _pick_lang_assistant srv' lang = Some a' /\ assistant_ru srv' <> None /\
  exists rest, tr = tr_a ++ rest.
Proof.
  intros Haudio Hru Hpick.
  destruct audio as [|b audio]; [done|]. unfold alina_voice, voice_pipeline.
  set (st := snd (begin_run _ (cancels srv))).
  change (assistant_ru (set_cancels srv st)) with (assistant_ru srv).
  destruct (assistant_ru srv) as [ru|] eqn:Hr; [|done].
  rewrite pick_set_cancels, Hpick.
  destruct (handle_user_audio a (primary_io env) (signal env)) as [[a' r] tr] eqn:Hh.
  assert (Hfin : forall srv2 : server,
    _pick_lang_assistant srv2 lang = Some a' -> assistant_ru srv2 <> None ->
    _pick_lang_assistant (set_cancels srv2 (end_run (if Py.str_truthy sid then sid else minted_id env)
                                                   (cancels srv2))) lang = Some a' /\
    assistant_ru (set_cancels srv2 (end_run (if Py.str_truthy sid then sid else minted_id env)
                                           (cancels srv2))) <> None).
  { intros srv2 H1 H2. by rewrite pick_set_cancels. }
  assert (Hs1 : _pick_lang_assistant (store_lang_assistant (set_cancels srv st) lang a') lang = Some a')
    by apply pick_store_lang_assistant.
  assert (Hs2 : assistant_ru (store_lang_assistant (set_cancels srv st) lang a') <> None)
    by (apply ru_store_lang_assistant; simpl; by rewrite Hr).
  destruct r as [d|e].
  - simpl. destruct (Hfin _ Hs1 Hs2) as [H1 H2]. split; [done|split; [done|]].
    exists []. by rewrite app_nil_r.
  - destruct (_fallback_pipeline lang (fallback_io env) (signal env)) as [[d|m] tr'];
      simpl; destruct (Hfin _ Hs1 Hs2) as [H1 H2]; (split; [done|split; [done|]]); by exists tr'.
Qed.

(** What one primary run does to the history and which prompt it sends. *)
Lemma handle_user_audio_commits (a : alina_assistant) (io : adapters) (sig : token_obs)
    (v : py_val) :
  stt_out io = Some v -> py_truthy v && Py.str_truthy (Py.strip (py_str v)) = true ->
  cancelled_at sig 1 = false ->
  let a1 := append_trim a (mk_turn User (Py.strip (py_str v))) in
  let '(a', _, tr) := handle_user_audio a io sig in
  (exists rest, tr = CallSTT :: CallLLM (history a1) :: rest) /\
  (a' = a1 \/ exists ans, a' = append_trim a1 (mk_turn Assistant ans)) /\
  (forall ans, llm_out io = Some ans -> cancelled_at sig 2 = false ->
     a' = append_trim a1 (mk_turn Assistant (Py.strip ans))).
Proof.
  intros Hs Hv H1. unfold handle_user_audio. rewrite Hs, H1.
  apply andb_prop in Hv as [Hv1 Hv2]. rewrite Hv1, Hv2. simpl.
  destruct (llm_out io) as [ans0|] eqn:Hl.
  - destruct (cancelled_at sig 2) eqn:H2.
    + split; [by exists []|]. split; [by left|]. intros ans [= <-]. congruence.
    + destruct (run_tts (tts_net io) (Py.strip ans0)) as [[b|m] tr2];
        (split; [by exists tr2|]); (split; [right; by eexists|]); by intros ans [= <-].
  - split; [by exists []|]. split; [by left|]. discriminate.
Qed.

(** C3: the primary path keeps one [AlinaAssistant] per language mode.  For
    two /alina/voice requests with the same [lang] and distinct session ids,
    both served by the primary assistant (default [max_history_turns = 8]),
    where the first one's transcript is committed, the second request's LLM
    prompt contains the first session's user turn, and also its assistant
    turn when the first run committed its reply. *)
Theorem sessions_share_language_history (srv : server) (lang s1 s2 : string)
    (audio1 audio2 : list Byte.byte) (env1 env2 : request_env) (a : alina_assistant)
    (sys : turn) (rest : list turn) (v1 v2 : py_val) :
  s1 <> s2 ->
  assistant_ru srv <> None -> _pick_lang_assistant srv lang = Some a ->
  max_history_turns a = 8 -> history a = sys :: rest ->
  audio1 <> [] -> audio2 <> [] ->
  stt_out (primary_io env1) = Some v1 ->
  py_truthy v1 && Py.str_truthy (Py.strip (py_str v1)) = true ->
  cancelled_at (signal env1) 1 = false ->
  stt_out (primary_io env2) = Some v2 ->
  py_truthy v2 && Py.str_truthy (Py.strip (py_str v2)) = true ->
  cancelled_at (signal env2) 1 = false ->
  let '(srv1, _, _) := alina_voice srv audio1 lang s1 env1 in
  let '(_, _, tr2) := alina_voice srv1 audio2 lang s2 env2 in
  exists p, In (CallLLM p) tr2 /\
    In (mk_turn User (Py.strip (py_str v1))) p /\
    (forall ans, llm_out (primary_io env1) = Some ans -> cancelled_at (signal env1) 2 = false ->
       In (mk_turn Assistant (Py.strip ans)) p).
Proof.
  intros _ Hru Hpick HN Hh Ha1 Ha2 Hs1 Hv1 Hc1 Hs2 Hv2 Hc2.
  set (u1 := mk_turn User (Py.strip (py_str v1))).
  set (u2 := mk_turn User (Py.strip (py_str v2))).
  pose proof (alina_voice_primary srv audio1 lang s1 env1 a Ha1 Hru Hpick) as Hrun1.
  destruct (alina_voice srv audio1 lang s1 env1) as [[srv1 resp1] tr1].
  pose proof (handle_user_audio_commits a (primary_io env1) (signal env1) v1 Hs1 Hv1 Hc1) as Hc.
  destruct (handle_user_audio a (primary_io env1) (signal env1)) as [[a' r1] tra1].
  destruct Hrun1 as (Hpick1 & Hru1 & _).
  destruct Hc as (_ & Ha' & Hcommit).
  fold u1 in Ha', Hcommit.
  pose proof (alina_voice_primary srv1 audio2 lang s2 env2 a' Ha2 Hru1 Hpick1) as Hrun2.
  destruct (alina_voice srv1 audio2 lang s2 env2) as [[srv2 resp2] tr2].
  pose proof (handle_user_audio_commits a' (primary_io env2) (signal env2) v2 Hs2 Hv2 Hc2) as Hc'.
  destruct (handle_user_audio a' (primary_io env2) (signal env2)) as [[a'' r2] tra2].
  destruct Hrun2 as (_ & _ & [rest2 ->]).
  destruct Hc' as ([rest3 ->] & _ & _). fold u2.
  exists (history (append_trim a' u2)). split; [simpl; auto|].
  assert (Hin : forall b pre sfx x, max_history_turns b = 8 -> history b = sys :: pre ++ sfx ->
            (length sfx <= 2)%nat -> In x sfx -> In x (history (append_trim b u2))).
  { intros b pre sfx x Hb Hbh Hl Hx.
    destruct (append_trim_keeps_suffix b sys pre sfx u2 ltac:(lia) Hbh
                ltac:(rewrite Hb; simpl; lia)) as [pre' ->].
    right. apply in_or_app. right. apply in_or_app. by left. }
  assert (HNa : max_history_turns (append_trim a u1) = 8) by (by rewrite max_turns_append_trim).
  destruct (append_trim_keeps_suffix a sys rest [] u1 ltac:(lia) ltac:(by rewrite app_nil_r)
              ltac:(rewrite HN; simpl; lia)) as [pre1 Hh1].
  simpl in Hh1.
  assert (Hpair : forall x, (exists pre2, history (append_trim (append_trim a u1) x) =
                                          sys :: pre2 ++ [u1; x]) /\
                            max_history_turns (append_trim (append_trim a u1) x) = 8).
  { intros x. split; [|by rewrite !max_turns_append_trim].
    destruct (append_trim_keeps_suffix (append_trim a u1) sys pre1 [u1] x ltac:(lia) Hh1
                ltac:(rewrite HNa; simpl; lia)) as [pre2 Hh2].
    by exists pre2. }
  split.
  - destruct Ha' as [-> | [ans ->]].
    + apply (Hin _ pre1 [u1]); simpl; auto.
    + destruct (Hpair (mk_turn Assistant ans)) as [[pre2 Hh2] Hm].
      apply (Hin _ pre2 [u1; mk_turn Assistant ans]); simpl; auto.
  - intros ans Hl H2. rewrite (Hcommit ans Hl H2).
    destruct (Hpair (mk_turn Assistant (Py.strip ans))) as [[pre2 Hh2] Hm].
    apply (Hin _ pre2 [u1; mk_turn Assistant (Py.strip ans)]); simpl; auto.
Qed.

Lemma sessions_share_language_history_witness :
  let srv := init_server true in
  let env1 := mk_env (mk_adapters (Some (PStr "hello")) (Some "hi") (Some [Byte.x02]))
                (mk_adapters None None None) None "u1" in
  let env2 := mk_env (mk_adapters (Some (PStr "who am I?")) (Some "Bob") (Some [Byte.x03]))
                (mk_adapters None None None) None "u2" in
  ("alice" <> "bob" /\ assistant_ru srv <> None /\ _pick_lang_assistant srv "ru" = Some ru8 /\
   history ru8 = [sys_ru]) /\
  (let '(srv1, _, _) := alina_voice srv [Byte.x01] "ru" "alice" env1 in
   let '(_, _, tr2) := alina_voice srv1 [Byte.x01] "ru" "bob" env2 in
   exists p, In (CallLLM p) tr2 /\
     In (mk_turn User (Py.strip (py_str (PStr "hello")))) p /\
     (forall ans, llm_out (primary_io env1) = Some ans -> cancelled_at (signal env1) 2 = false ->
        In (mk_turn Assistant (Py.strip ans)) p)).
Proof.
  simpl. split; [repeat split; discriminate|].
  apply (sessions_share_language_history (init_server true) "ru" "alice" "bob"
           [Byte.x01] [Byte.x01]
           (mk_env (mk_adapters (Some (PStr "hello")) (Some "hi") (Some [Byte.x02]))
              (mk_adapters None None None) None "u1")
           (mk_env (mk_adapters (Some (PStr "who am I?")) (Some "Bob") (Some [Byte.x03]))
              (mk_adapters None None None) None "u2")
           ru8 sys_ru [] (PStr "hello") (PStr "who am I?"));
    (reflexivity || discriminate).
Defined.

(* ------------------------------------------------------------------ *)
(** ** Further properties of the code *)

(** *** Helpers: what a request changes in the server state *)

Lemma slot_set_cancels (srv : server) (st : cancel_store) (k : lang_slot) :
  slot_assistant (set_cancels srv st) k = slot_assistant srv k.
Proof. by destruct k. Qed.

Lemma slot_store_other (srv : server) (lang : string) (a : alina_assistant) (k : lang_slot) :
  slot_of lang <> k -> slot_assistant (store_lang_assistant srv lang a) k = slot_assistant srv k.
Proof.
  unfold slot_of, store_lang_assistant.
  destruct (decide (lang = "en")); [|destruct (decide (lang = "th"))];
    destruct k; simpl; congruence.
Qed.

Lemma cancels_store_lang_assistant (srv : server) (lang : string) (a : alina_assistant) :
  cancels (store_lang_assistant srv lang a) = cancels srv.
Proof.
  unfold store_lang_assistant.
  destruct (decide (lang = "en")); [|destruct (decide (lang = "th"))]; reflexivity.
Qed.

(** The pipeline keeps the cancel store and only writes the assistant of its
    own language slot. *)
Lemma voice_pipeline_frame (srv : server) (lang : string) (env : request_env) :
  let '(srv', _, _) := voice_pipeline srv lang env in
  cancels srv' = cancels srv /\
  (forall k, slot_of lang <> k -> slot_assistant srv' k = slot_assistant srv k).
Proof.
  unfold voice_pipeline.
  destruct (assistant_ru srv) as [ru|].
  - destruct (_pick_lang_assistant srv lang) as [a|].
    + destruct (handle_user_audio a (primary_io env) (signal env)) as [[a' r] tr].
      assert (H : cancels (store_lang_assistant srv lang a') = cancels srv /\
                  (forall k, slot_of lang <> k ->
                     slot_assistant (store_lang_assistant srv lang a') k = slot_assistant srv k))
        by (split; [apply cancels_store_lang_assistant|intros k; apply slot_store_other]).
      destruct r as [d|e]; [exact H|].
      by destruct (_fallback_pipeline _ _ _) as [[d|m] tr'].
    + by destruct (_fallback_pipeline _ _ _) as [[d|m] tr'].
  - by destruct (_fallback_pipeline _ _ _) as [[d|m] tr'].
Qed.

(** *** Helpers: the cancel store *)

Lemma run_events_app (st : cancel_store) (es1 es2 : list store_event) :
  run_events st (es1 ++ es2) = run_events (run_events st es1) es2.
Proof. unfold run_events. apply fold_left_app. Qed.

Lemma store_wf_empty : store_wf empty_store.
Proof. split; simpl; intros ??; rewrite lookup_empty; discriminate. Qed.

Lemma store_wf_step (st : cancel_store) (e : store_event) :
  store_wf st -> store_wf (store_step st e).
Proof.
  intros [Ht Ha]. destruct e as [s|s|s]; simpl.
  - split; simpl.
    + intros t b Hl. destruct (decide (t = next_tok st)) as [->|Hne]; [lia|].
      rewrite lookup_insert_ne in Hl by congruence. specialize (Ht _ _ Hl). lia.
    + intros s' t Hl. destruct (decide (s' = s)) as [->|Hne].
      * rewrite lookup_insert_eq in Hl. injection Hl as <-. lia.
      * rewrite lookup_insert_ne in Hl by congruence. specialize (Ha _ _ Hl). lia.
  - split; simpl; [exact Ht|].
    intros s' t Hl. destruct (decide (s' = s)) as [->|Hne].
    + by rewrite lookup_delete_eq in Hl.
    + rewrite lookup_delete_ne in Hl by congruence. exact (Ha _ _ Hl).
  - unfold alina_cancel. destruct (active_cancels st !! s) as [t0|] eqn:Hs; simpl;
      [|by split].
    split; simpl; [|exact Ha].
    intros t b Hl. destruct (decide (t = t0)) as [->|Hne]; [exact (Ha _ _ Hs)|].
    rewrite lookup_insert_ne in Hl by congruence. exact (Ht _ _ Hl).
Qed.

Lemma store_wf_run (st : cancel_store) (es : list store_event) :
  store_wf st -> store_wf (run_events st es).
Proof.
  revert st. induction es as [|e es IH]; intros st H; simpl; [exact H|].
  apply IH, store_wf_step, H.
Qed.

Lemma signalled_step (st : cancel_store) (e : store_event) (t : nat) :
  store_wf st -> tokens st !! t = Some true -> tokens (store_step st e) !! t = Some true.
Proof.
  intros [Ht _] Hl. destruct e as [s|s|s]; simpl.
  - rewrite lookup_insert_ne; [exact Hl|]. specialize (Ht _ _ Hl). lia.
  - exact Hl.
  - unfold alina_cancel. destruct (active_cancels st !! s) as [t0|]; simpl; [|exact Hl].
    destruct (decide (t = t0)) as [->|Hne]; [by rewrite lookup_insert_eq|].
    by rewrite lookup_insert_ne by congruence.
Qed.

Lemma signalled_run (st : cancel_store) (es : list store_event) (t : nat) :
  store_wf st -> tokens st !! t = Some true -> tokens (run_events st es) !! t = Some true.
Proof.
  revert st. induction es as [|e es IH]; intros st Hwf Hl; simpl; [exact Hl|].
  apply IH; [by apply store_wf_step|]. by apply signalled_step.
Qed.

Lemma active_step_other (st : cancel_store) (e : store_event) (s : string) :
  event_session e <> s ->
  active_cancels (store_step st e) !! s = active_cancels st !! s.
Proof.
  intros Hne. destruct e as [s'|s'|s']; simpl in *.
  - by rewrite lookup_insert_ne.
  - by rewrite lookup_delete_ne.
  - unfold alina_cancel. by destruct (active_cancels st !! s').
Qed.

Lemma active_run_other (st : cancel_store) (es : list store_event) (s : string) :
  Forall (fun e => event_session e <> s) es ->
  active_cancels (run_events st es) !! s = active_cancels st !! s.
Proof.
  revert st. induction es as [|e es IH]; intros st Hall; simpl; [done|].
  apply Forall_cons in Hall as [He Hall]. rewrite IH by exact Hall.
  by apply active_step_other.
Qed.

(** *** Server state across one request *)

(** X1: a request never changes the assistant of another language slot: a
    request in one language leaves the primary assistants of the other
    languages (and so their histories) as they were. *)
Theorem request_leaves_other_languages (srv : server) (audio : list Byte.byte)
    (lang session_id : string) (env : request_env) (k : lang_slot) :
  slot_of lang <> k ->
  slot_assistant (fst (fst (alina_voice srv audio lang session_id env))) k = slot_assistant srv k.
Proof.
  intros Hk. destruct audio as [|b audio]; [reflexivity|]. unfold alina_voice.
  set (srv1 := set_cancels srv _).
  pose proof (voice_pipeline_frame srv1 lang env) as Hf.
  destruct (voice_pipeline srv1 lang env) as [[srv2 r] tr]. destruct Hf as [_ Hf].
  simpl fst. rewrite slot_set_cancels, Hf by exact Hk. apply slot_set_cancels.
Qed.

Lemma request_leaves_other_languages_witness :
  slot_of "th" <> SlotEn /\
  slot_assistant (fst (fst (alina_voice (init_server true) [Byte.x01] "th" "s1"
     (mk_env (mk_adapters (Some (PStr "hi")) (Some "ok") (Some [Byte.x02]))
             (mk_adapters None None None) None "u1")))) SlotEn
  = slot_assistant (init_server true) SlotEn.
Proof.
  split; [intros H; vm_compute in H; discriminate H|].
  apply request_leaves_other_languages. intros H; vm_compute in H; discriminate H.
Defined.

(** X2: an empty upload is answered 400 before anything else happens (no
    adapter call, no state change).  A non-empty upload, run on its own,
    leaves [active_cancels] as it found it except that the entry of its
    session id (the form's [session_id], or the minted uuid when that is
    empty) is removed, and a 200 response carries that session id. *)
Theorem alina_voice_session_lifecycle (srv : server) (lang session_id : string)
    (env : request_env) :
  alina_voice srv [] lang session_id env = (srv, HTTPError 400 "Empty audio file", []) /\
  forall (b : Byte.byte) (audio : list Byte.byte),
    let sid := if Py.str_truthy session_id then session_id else minted_id env in
    let '(srv', resp, _) := alina_voice srv (b :: audio) lang session_id env in
    active_cancels (cancels srv') = delete sid (active_cancels (cancels srv)) /\
    match resp with HTTP200 _ id => id = sid | HTTPError _ _ => True end.
Proof.
  split; [reflexivity|]. intros b audio sid. unfold alina_voice. fold sid.
  set (srv1 := set_cancels srv _).
  pose proof (voice_pipeline_frame srv1 lang env) as Hf.
  destruct (voice_pipeline srv1 lang env) as [[srv2 r] tr]. destruct Hf as [Hc _].
  split.
  - simpl. rewrite Hc. simpl. apply delete_insert_eq.
  - destruct r as [d|m]; [destruct (json_ok d)|]; done.
Qed.

(** *** [/alina/cancel] and the token store *)

(** X3: [/alina/cancel] never adds or removes a session entry, answers
    ["cancelled"] exactly when the session has an entry, and is idempotent:
    cancelling twice gives the same answer and state as cancelling once. *)
Theorem alina_cancel_idempotent (sid : string) (st : cancel_store) :
  let '(status, st1) := alina_cancel sid st in
  active_cancels st1 = active_cancels st /\ next_tok st1 = next_tok st /\
  (status = "cancelled" <-> is_Some (active_cancels st !! sid)) /\
  alina_cancel sid st1 = (status, st1).
Proof.
  unfold alina_cancel. destruct (active_cancels st !! sid) as [t|] eqn:Hs; simpl.
  - split; [done|split; [done|split; [split; [by eexists|done]|]]].
    rewrite Hs. by rewrite insert_insert_eq.
  - split; [done|split; [done|split; [split; [discriminate|by intros []]|]]].
    by rewrite Hs.
Qed.

(** X4: a signalled [CancelToken] stays signalled: in any store reached from
    the initial one by begin/end/cancel events, a token that reads
    [cancelled = True] still does after any further events. *)
Theorem cancel_is_permanent (es1 es2 : list store_event) (t : nat) :
  tokens (run_events empty_store es1) !! t = Some true ->
  tokens (run_events empty_store (es1 ++ es2)) !! t = Some true.
Proof.
  intros H. rewrite run_events_app. apply signalled_run; [|exact H].
  apply store_wf_run, store_wf_empty.
Qed.

Lemma cancel_is_permanent_witness :
  tokens (run_events empty_store [EvBegin "s"; EvCancel "s"]) !! 0%nat = Some true /\
  tokens (run_events empty_store ([EvBegin "s"; EvCancel "s"] ++ [EvEnd "s"; EvBegin "s"]))
    !! 0%nat = Some true.
Proof.
  split; [vm_compute; reflexivity|].
  apply cancel_is_permanent. vm_compute. reflexivity.
Defined.

(** X5: a cancel reaches the running request of its session: after a request
    for session [s] installs its token, and other sessions' events only, a
    cancel for [s] answers ["cancelled"] and signals exactly the token that
    request installed. *)
Theorem cancel_reaches_current_token (st : cancel_store) (s : string) (evs : list store_event) :
  Forall (fun e => event_session e <> s) evs ->
  let st1 := run_events st (EvBegin s :: evs) in
  fst (alina_cancel s st1) = "cancelled" /\
  tokens (snd (alina_cancel s st1)) !! next_tok st = Some true.
Proof.
  intros Hall st1. unfold alina_cancel.
  assert (Hs : active_cancels st1 !! s = Some (next_tok st)).
  { unfold st1. simpl. rewrite (active_run_other _ _ _ Hall). simpl.
    apply lookup_insert_eq. }
  rewrite Hs. simpl. split; [done|]. apply lookup_insert_eq.
Qed.

Lemma cancel_reaches_current_token_witness :
  Forall (fun e => event_session e <> "a") [EvBegin "b"; EvCancel "b"; EvEnd "b"] /\
  fst (alina_cancel "a" (run_events empty_store (EvBegin "a" :: [EvBegin "b"; EvCancel "b"; EvEnd "b"])))
    = "cancelled".
Proof.
  assert (H : Forall (fun e => event_session e <> "a") [EvBegin "b"; EvCancel "b"; EvEnd "b"]).
  { repeat constructor; simpl; intros Habs; discriminate Habs. }
  split; [exact H|]. apply (cancel_reaches_current_token empty_store "a" _ H).
Defined.

(** *** Helpers: trimming and pairing *)

Lemma last_n_length {A} (n : nat) (l : list A) : (length (last_n n l) <= n)%nat.
Proof. unfold last_n. rewrite length_drop. lia. Qed.

Lemma last_n_snoc {A} (n : nat) (l : list A) (x : A) :
  last_n n (last_n n l ++ [x]) = last_n n (l ++ [x]).
Proof.
  unfold last_n. rewrite !length_app, length_drop. simpl length.
  rewrite <- (drop_app_le l [x] (length l - n)) by lia.
  rewrite drop_drop. f_equal. lia.
Qed.

Lemma pairs_ok_facts (n : nat) (l : list turn) :
  (length l <= n)%nat -> pairs_ok l = true ->
  (exists m, length l = 2 * m)%nat /\ (forall k, pairs_ok (drop (2 * k) l) = true) /\
  (forall l2, pairs_ok l2 = true -> pairs_ok (l ++ l2) = true).
Proof.
  revert l. induction n as [|n IH]; intros l Hl Hp.
  - destruct l; [|simpl in Hl; lia].
    split; [by exists 0%nat|]. split; [intros k; by rewrite drop_nil|]. done.
  - destruct l as [|u [|x l]]; [|done|].
    + split; [by exists 0%nat|]. split; [intros k; by rewrite drop_nil|]. done.
    + simpl in Hp. apply andb_prop in Hp as [Hux Hp].
      simpl in Hl. destruct (IH l ltac:(lia) Hp) as [[m Hm] [Hd Ha]].
      split; [exists (S m); simpl; lia|]. split.
      * intros [|k]; [simpl; by rewrite Hux, Hp|]. replace (2 * S k)%nat with (S (S (2 * k))) by lia.
        apply Hd.
      * intros l2 H2. simpl. rewrite Hux. simpl. by apply Ha.
Qed.

Lemma store_pick_same (srv : server) (lang : string) (a : alina_assistant) (k : lang_slot) :
  _pick_lang_assistant srv lang = Some a ->
  slot_assistant (store_lang_assistant srv lang a) k = slot_assistant srv k.
Proof.
  unfold _pick_lang_assistant, store_lang_assistant.
  destruct (decide (lang = "en")); [|destruct (decide (lang = "th"))];
    intros H; destruct k; simpl; congruence.
Qed.

Lemma handle_user_audio_transcript (a : alina_assistant) (io : adapters) (sig : token_obs)
    (v : py_val) (a' : alina_assistant) (d : voice_result) (tr : list call) :
  stt_out io = Some v -> handle_user_audio a io sig = (a', Ok d, tr) -> r_transcript d = v.
Proof.
  intros Hs. unfold handle_user_audio. rewrite Hs.
  destruct (cancelled_at sig 1); [by intros [= _ <- _]|].
  destruct (_ || _); [discriminate|].
  destruct (llm_out io); [|discriminate].
  destruct (cancelled_at sig 2); [by intros [= _ <- _]|].
  destruct (run_tts _ _) as [[b|m] tr2]; [by intros [= _ <- _]|discriminate].
Qed.

Lemma run_tts_no_llm (net : option (list Byte.byte)) (text : string) (p : list turn) :
  ~ In (CallLLM p) (snd (run_tts net text)).
Proof.
  unfold run_tts. destruct (tts_elevenlabs text); [|destruct net];
    simpl; intuition discriminate.
Qed.

(** *** History trimming and pairing *)

(** X6: for [max_history_turns = N >= 1], appending a turn and trimming keeps
    the system turn first, followed by the last [2 * N] non-system turns in
    their original order (oldest dropped first), so the history never grows
    beyond [1 + 2 * N] entries. *)
Theorem append_trim_fifo (a : alina_assistant) (s t : turn) (rest : list turn) :
  1 <= max_history_turns a -> history a = s :: rest ->
  history (append_trim a t) = s :: last_n (Z.to_nat (2 * max_history_turns a)) (rest ++ [t]) /\
  (length (history (append_trim a t)) <= 1 + Z.to_nat (2 * max_history_turns a))%nat.
Proof.
  intros HN Hh. unfold append_trim.
  assert (E : history (_trim_history (set_history a (history a ++ [t]))) =
              s :: last_n (Z.to_nat (2 * max_history_turns a)) (rest ++ [t])).
  { apply (trim_history_keeps_last (set_history a (history a ++ [t])) s (rest ++ [t]));
      [exact HN|by rewrite Hh]. }
  rewrite E. split; [done|]. simpl length. pose proof (last_n_length (Z.to_nat (2 * max_history_turns a)) (rest ++ [t])). lia.
Qed.

Lemma append_trim_fifo_witness :
  1 <= max_history_turns (new_assistant "en" 1) /\
  history (append_trim (set_history (new_assistant "en" 1)
      [mk_turn System "p"; mk_turn User "q1"; mk_turn Assistant "a1"]) (mk_turn User "q2"))
  = mk_turn System "p" :: last_n 2 [mk_turn Assistant "a1"; mk_turn User "q2"].
Proof.
  assert (H : 1 <= max_history_turns (new_assistant "en" 1)) by (apply Z.leb_le; reflexivity).
  split; [exact H|].
  refine (proj1 (append_trim_fifo (set_history (new_assistant "en" 1)
      [mk_turn System "p"; mk_turn User "q1"; mk_turn Assistant "a1"]) (mk_turn System "p")
      (mk_turn User "q2") [mk_turn User "q1"; mk_turn Assistant "a1"] H eq_refl)).
Defined.

(** X7: a primary run that commits its reply keeps the history well paired:
    for [max_history_turns = N >= 1], if the history is the system turn
    followed by (user, assistant) pairs, then after a run whose transcript is
    non-blank, whose LLM call returns and which is not cancelled, the history
    is again the system turn followed by at most [N] (user, assistant) pairs,
    the last pair being this run's stripped transcript and stripped reply
    (whatever the outcome of TTS). *)
Theorem committed_run_keeps_pairs (a : alina_assistant) (io : adapters) (sig : token_obs)
    (v : py_val) (ans : string) (s : turn) (P : list turn) :
  1 <= max_history_turns a -> history a = s :: P -> pairs_ok P = true ->
  stt_out io = Some v -> py_truthy v && Py.str_truthy (Py.strip (py_str v)) = true ->
  llm_out io = Some ans -> cancelled_at sig 2 = false ->
  let '(a', _, _) := handle_user_audio a io sig in
  exists P', history a' = s :: P' /\ pairs_ok P' = true /\
    (length P' <= Z.to_nat (2 * max_history_turns a))%nat /\
    exists P0, P' = P0 ++ [mk_turn User (Py.strip (py_str v)); mk_turn Assistant (Py.strip ans)].
Proof.
  intros HN Hh HP Hs Hv Hl H2.
  assert (H1 : cancelled_at sig 1 = false) by (apply (cancelled_at_mono sig 1 2); [lia|exact H2]).
  pose proof (handle_user_audio_commits a io sig v Hs Hv H1) as Hc.
  destruct (handle_user_audio a io sig) as [[a' r] tr]. destruct Hc as [_ [_ Hc]].
  rewrite (Hc ans Hl H2).
  set (u := mk_turn User (Py.strip (py_str v))).
  set (x := mk_turn Assistant (Py.strip ans)).
  set (n := Z.to_nat (2 * max_history_turns a)).
  assert (Hn : (2 <= n)%nat) by (unfold n; lia).
  assert (E1 : history (append_trim a u) = s :: last_n n (P ++ [u])).
  { unfold append_trim.
    rewrite (trim_history_keeps_last _ s (P ++ [u])); [reflexivity|exact HN|by rewrite Hh]. }
  assert (E2 : history (append_trim (append_trim a u) x) = s :: last_n n (P ++ [u; x])).
  { unfold append_trim at 1.
    rewrite (trim_history_keeps_last _ s (last_n n (P ++ [u]) ++ [x])).
    - simpl. rewrite max_turns_append_trim. fold n. rewrite last_n_snoc, <- app_assoc. done.
    - simpl. by rewrite max_turns_append_trim.
    - simpl. by rewrite E1. }
  rewrite E2. exists (last_n n (P ++ [u; x])). split; [done|].
  destruct (pairs_ok_facts (length P) P ltac:(lia) HP) as [[m Hm] [_ Happ]].
  assert (HPux : pairs_ok (P ++ [u; x]) = true) by (apply Happ; reflexivity).
  destruct (pairs_ok_facts (length (P ++ [u; x])) (P ++ [u; x]) ltac:(lia) HPux) as [_ [Hdrop _]].
  split; [|split; [apply last_n_length|apply last_n_app; simpl; lia]].
  unfold last_n. rewrite length_app. simpl length.
  destruct (Nat.le_gt_cases (length P + 2) n) as [Hle|Hgt].
  - replace (length P + 2 - n)%nat with (2 * 0)%nat by lia. apply Hdrop.
  - assert (Hn2 : (exists j, n = 2 * j)%nat) by (exists (Z.to_nat (max_history_turns a)); unfold n; lia).
    destruct Hn2 as [j Hj].
    replace (length P + 2 - n)%nat with (2 * (m + 1 - j))%nat by lia. apply Hdrop.
Qed.

Lemma committed_run_keeps_pairs_witness :
  let io := mk_adapters (Some (PStr " hi ")) (Some "hello") None in
  let '(a', _, _) := handle_user_audio (new_assistant "en" 1) io None in
  exists P', history a' = mk_turn System (_system_prompt "en") :: P' /\ pairs_ok P' = true /\
    (length P' <= Z.to_nat (2 * max_history_turns (new_assistant "en" 1)))%nat /\
    exists P0, P' = P0 ++ [mk_turn User (Py.strip (py_str (PStr " hi ")));
                           mk_turn Assistant (Py.strip "hello")].
Proof.
  apply (committed_run_keeps_pairs (new_assistant "en" 1)
           (mk_adapters (Some (PStr " hi ")) (Some "hello") None) None (PStr " hi ") "hello"
           (mk_turn System (_system_prompt "en")) []);
    [apply Z.leb_le; reflexivity|reflexivity|reflexivity|reflexivity|reflexivity|reflexivity|reflexivity].
Defined.

(** *** Cancellation, prompts and responses *)

(** X8: a request whose token is signalled before its first checkpoint (right
    after transcription) calls neither the LLM nor TTS on any path (primary or
    fallback), and leaves all three language assistants, and so their
    histories, unchanged. *)
Theorem early_cancel_only_stt (srv : server) (audio : list Byte.byte) (lang session_id : string)
    (env : request_env) :
  cancelled_at (signal env) 1 = true ->
  let '(srv', _, tr) := alina_voice srv audio lang session_id env in
  Forall (fun c => c = CallSTT) tr /\ forall k, slot_assistant srv' k = slot_assistant srv k.
Proof.
  intros H1.
  assert (H3 : cancelled_at (signal env) 3 = true).
  { destruct (cancelled_at (signal env) 3) eqn:E; [done|].
    rewrite (cancelled_at_mono _ 1 3 ltac:(lia) E) in H1. discriminate. }
  assert (Hfb : Forall (fun c => c = CallSTT) (snd (_fallback_pipeline lang (fallback_io env) (signal env)))).
  { unfold _fallback_pipeline. destruct (stt_out (fallback_io env)); [rewrite H3|]; simpl; auto. }
  destruct audio as [|b audio]; [split; [constructor|done]|]. unfold alina_voice.
  set (srv1 := set_cancels srv _).
  assert (Hfin : forall srv2 tr, Forall (fun c => c = CallSTT) tr ->
     (forall k, slot_assistant srv2 k = slot_assistant srv1 k) ->
     Forall (fun c => c = CallSTT) tr /\
     forall k, slot_assistant (set_cancels srv2 (end_run (if Py.str_truthy session_id
        then session_id else minted_id env) (cancels srv2))) k = slot_assistant srv k).
  { intros srv2 tr Htr Hk. split; [exact Htr|]. intros k.
    rewrite slot_set_cancels, Hk. apply slot_set_cancels. }
  unfold voice_pipeline.
  destruct (assistant_ru srv1) as [ru|].
  - destruct (_pick_lang_assistant srv1 lang) as [a|] eqn:Hp.
    + unfold handle_user_audio.
      destruct (stt_out (primary_io env)) as [t|].
      * rewrite H1. simpl. apply Hfin; [repeat constructor|intros k; by apply store_pick_same].
      * destruct (_fallback_pipeline lang (fallback_io env) (signal env)) as [[d|m] tr'];
          simpl in Hfb; simpl; apply Hfin; try (intros k; by apply store_pick_same);
          constructor; auto.
    + destruct (_fallback_pipeline lang (fallback_io env) (signal env)) as [[d|m] tr'];
        simpl in Hfb; simpl; by apply Hfin.
  - destruct (_fallback_pipeline lang (fallback_io env) (signal env)) as [fb tr'].
    simpl in Hfb. simpl. by apply Hfin.
Qed.

Lemma early_cancel_only_stt_witness :
  let env := mk_env (mk_adapters (Some PCoro) (Some "ok") (Some [Byte.x02]))
                    (mk_adapters (Some (PStr "hi")) (Some "ok") (Some [Byte.x02])) (Some 1%nat) "u1" in
  cancelled_at (signal env) 1 = true /\
  let '(srv', _, tr) := alina_voice (init_server true) [Byte.x01] "en" "s1" env in
  Forall (fun c => c = CallSTT) tr /\
  forall k, slot_assistant srv' k = slot_assistant (init_server true) k.
Proof.
  split; [reflexivity|]. apply early_cancel_only_stt. reflexivity.
Defined.


(** X10: the primary path never produces a successful response: its
    transcription function is the un-awaited [async] [transcribe], so when
    the primary assistant returns a result (it does not raise), that result
    carries a coroutine object, JSON rendering fails and the request answers
    HTTP 500. *)
Theorem primary_result_is_500 (srv : server) (audio : list Byte.byte) (lang session_id : string)
    (env : request_env) :
  audio <> [] -> assistant_ru srv <> None -> stt_out (primary_io env) = Some PCoro ->
  reaches_fallback srv lang env = false ->
  snd (fst (alina_voice srv audio lang session_id env)) = HTTPError 500 "Alina error".
Proof.
  intros Ha Hru Hs Hr. destruct audio as [|b audio]; [done|]. unfold alina_voice.
  set (st := snd (begin_run _ (cancels srv))).
  rewrite <- (reaches_fallback_set_cancels srv st) in Hr.
  unfold reaches_fallback in Hr. unfold voice_pipeline.
  destruct (assistant_ru (set_cancels srv st)) as [ru|]; [|discriminate].
  destruct (_pick_lang_assistant (set_cancels srv st) lang) as [a|]; [|discriminate].
  destruct (handle_user_audio a (primary_io env) (signal env)) as [[a' r] tr] eqn:Hh.
  destruct r as [d|e]; [|discriminate].
  simpl. unfold json_ok. by rewrite (handle_user_audio_transcript a _ _ _ a' d tr Hs Hh).
Qed.

Lemma primary_result_is_500_witness :
  snd (fst (alina_voice (init_server true) [Byte.x01] "en" "s1"
    (mk_env (mk_adapters (Some PCoro) (Some "hello") (Some [Byte.x02]))
            (mk_adapters None None None) None "u1"))) = HTTPError 500 "Alina error".
Proof.
  apply primary_result_is_500; [discriminate|discriminate|reflexivity|vm_compute; reflexivity].
Defined.

(** *** Helpers: [str.strip] on concatenations *)

(** Let [simpl] compute [String.append] on a known first argument. *)
#[local] Arguments String.append : simpl nomatch.

Lemma str_app_nil_r (s : string) : String.append s EmptyString = s.
Proof. induction s as [|c s IH]; simpl; [done|by rewrite IH]. Qed.

Lemma str_app_assoc (x y z : string) :
  String.append x (String.append y z) = String.append (String.append x y) z.
Proof. induction x as [|c x IH]; simpl; [done|by rewrite IH]. Qed.

Lemma rev_str_acc (s acc : string) :
  Py.rev_str s acc = String.append (Py.rev_str s EmptyString) acc.
Proof.
  revert acc. induction s as [|c s IH]; intros acc; simpl; [done|].
  rewrite (IH (String c acc)), (IH (String c EmptyString)), <- str_app_assoc. done.
Qed.

Lemma rev_str_app (x y acc : string) :
  Py.rev_str (String.append x y) acc = Py.rev_str y (Py.rev_str x acc).
Proof. revert acc. induction x as [|c x IH]; intros acc; simpl; auto. Qed.

Lemma rev_str_invol (s acc b : string) :
  Py.rev_str (Py.rev_str s acc) b = Py.rev_str acc (String.append s b).
Proof. revert acc. induction s as [|c s IH]; intros acc; simpl; [done|]. by rewrite IH. Qed.

Lemma rev_rev (s : string) : Py.rev_str (Py.rev_str s EmptyString) EmptyString = s.
Proof. rewrite rev_str_invol. simpl. apply str_app_nil_r. Qed.

Lemma lstrip_app (x y : string) :
  Py.lstrip (String.append x y) =
  if all_space x then Py.lstrip y else String.append (Py.lstrip x) y.
Proof.
  induction x as [|c x IH]; simpl; [done|].
  destruct (Py.isspace c); simpl; [exact IH|done].
Qed.

Lemma lstrip_idem (s : string) : Py.lstrip (Py.lstrip s) = Py.lstrip s.
Proof.
  induction s as [|c s IH]; simpl; [done|].
  destruct (Py.isspace c) eqn:Hc; [exact IH|]. simpl. by rewrite Hc.
Qed.

Lemma lstrip_suffix (s : string) : exists p, s = String.append p (Py.lstrip s).
Proof.
  induction s as [|c s [p Hp]]; simpl; [by exists EmptyString|].
  destruct (Py.isspace c); [exists (String c p); simpl; by rewrite <- Hp|].
  by exists EmptyString.
Qed.

Lemma lstrip_length (s : string) : (String.length (Py.lstrip s) <= String.length s)%nat.
Proof.
  induction s as [|c s IH]; simpl; [lia|]. destruct (Py.isspace c); simpl; lia.
Qed.

Lemma strip_rstrip (s : string) : Py.strip s = rstrip (Py.lstrip s).
Proof. reflexivity. Qed.

Lemma rstrip_prefix (z : string) : exists r, z = String.append (rstrip z) r.
Proof.
  destruct (lstrip_suffix (Py.rev_str z EmptyString)) as [p Hp].
  exists (Py.rev_str p EmptyString). unfold rstrip.
  rewrite <- rev_str_acc, <- rev_str_app, <- Hp. symmetry. apply rev_rev.
Qed.

Lemma rstrip_app_prefix (z y : string) :
  exists r, rstrip (String.append z y) = String.append (rstrip z) r.
Proof.
  unfold rstrip at 1. rewrite rev_str_app, (rev_str_acc y (Py.rev_str z EmptyString)), lstrip_app.
  rewrite all_space_rev_str. simpl. rewrite andb_true_r.
  destruct (all_space y); [by exists EmptyString; rewrite str_app_nil_r|].
  rewrite rev_str_app, rev_str_invol. simpl.
  destruct (rstrip_prefix z) as [r0 Hr0].
  exists (String.append r0 (Py.rev_str (Py.lstrip (Py.rev_str y EmptyString)) EmptyString)).
  rewrite str_app_assoc, <- Hr0. done.
Qed.

(** [str.strip] of a prefix is a prefix of [str.strip] of the whole. *)
Lemma strip_app_prefix (x y : string) :
  exists r, Py.strip (String.append x y) = String.append (Py.strip x) r.
Proof.
  destruct (all_space x) eqn:Hx.
  - rewrite (strip_all_space x Hx). by exists (Py.strip (String.append x y)).
  - rewrite !strip_rstrip, lstrip_app, Hx. apply rstrip_app_prefix.
Qed.

Lemma rstrip_idem (z : string) : rstrip (rstrip z) = rstrip z.
Proof. unfold rstrip at 1 2. rewrite rev_rev, lstrip_idem. reflexivity. Qed.

Lemma lstrip_rstrip (u : string) : Py.lstrip u = u -> Py.lstrip (rstrip u) = rstrip u.
Proof.
  destruct u as [|c w]; [done|]. intros Hu. simpl in Hu.
  destruct (Py.isspace c) eqn:Hc.
  - exfalso. pose proof (lstrip_length w) as Hl. rewrite Hu in Hl. simpl in Hl. lia.
  - unfold rstrip.
    change (Py.rev_str (String c w) EmptyString) with (Py.rev_str w (String c EmptyString)).
    rewrite (rev_str_acc w (String c EmptyString)), lstrip_app.
    destruct (all_space (Py.rev_str w EmptyString)).
    + simpl. rewrite Hc. simpl. by rewrite Hc.
    + rewrite rev_str_app. simpl. by rewrite Hc.
Qed.

Lemma strip_idem (s : string) : Py.strip (Py.strip s) = Py.strip s.
Proof.
  rewrite !strip_rstrip. rewrite (lstrip_rstrip (Py.lstrip s)) by apply lstrip_idem.
  apply rstrip_idem.
Qed.

(** *** Helpers: the streaming loops *)

Lemma join_str_app (l1 l2 : list string) :
  join_str (l1 ++ l2) = String.append (join_str l1) (join_str l2).
Proof. induction l1 as [|s l1 IH]; simpl; [done|]. by rewrite IH, str_app_assoc. Qed.

Lemma stream_loop_none (k : nat) (evs : list stream_event) (chunks : list string) :
  exists k', stream_loop None k (map Some evs) chunks = Some (chunks ++ truthy_deltas evs, k').
Proof.
  revert k chunks. induction evs as [|ev evs IH]; intros k chunks; simpl.
  - exists k. by rewrite app_nil_r.
  - destruct (delta ev) as [d|]; [destruct (Py.str_truthy d)|]; destruct (slow ev);
      (edestruct IH as [k' ->]; eexists; rewrite <-?app_assoc; reflexivity).
Qed.

Lemma stream_loop_map_some (sig : token_obs) (k : nat) (evs : list stream_event)
    (chunks : list string) :
  stream_loop sig k (map Some evs) chunks <> None.
Proof.
  revert k chunks. induction evs as [|ev evs IH]; intros k chunks; simpl; [done|].
  destruct (cancelled_at sig k); [done|].
  destruct (slow ev); [destruct (cancelled_at sig (S k))|]; auto.
Qed.

Lemma stream_loop_prefix (sig : token_obs) (k : nat) (evs : list stream_event)
    (chunks chunks' : list string) (k' : nat) :
  stream_loop sig k (map Some evs) chunks = Some (chunks', k') ->
  exists c1 c2, chunks' = chunks ++ c1 /\ c1 ++ c2 = truthy_deltas evs.
Proof.
  revert k chunks. induction evs as [|ev evs IH]; intros k chunks; simpl.
  - intros [= <- _]. exists [], []. by rewrite app_nil_r.
  - destruct (cancelled_at sig k);
      [|destruct (delta ev) as [d|]; [destruct (Py.str_truthy d)|]; destruct (slow ev);
        try destruct (cancelled_at sig (S k))];
      first
      [ intros [= <- _]; eexists [], _; split; [by rewrite app_nil_r|reflexivity]
      | intros [= <- _]; eexists [_], _; split; reflexivity
      | let H := fresh in intros H; destruct (IH _ _ H) as (c1 & c2 & -> & Hc);
        first [ exists c1, c2; split; [reflexivity|exact Hc]
              | eexists (_ :: c1), c2; split; [by rewrite <- app_assoc|simpl; by rewrite Hc] ] ].
Qed.

Lemma char_loop_prefix (sig : token_obs) (k : nat) (s : string) :
  exists r, s = String.append (char_loop sig k s) r.
Proof.
  revert k. induction s as [|c s IH]; intros k; simpl; [by exists EmptyString|].
  destruct (cancelled_at sig k); [by exists (String c s)|].
  destruct (IH (S k)) as [r Hr]. exists r. simpl. by rewrite <- Hr.
Qed.

Lemma char_loop_none (k : nat) (s : string) : char_loop None k s = s.
Proof. revert k. induction s as [|c s IH]; intros k; simpl; [done|by rewrite IH]. Qed.

(** *** Helpers: what is sent to TTS *)

Lemma tts_post_text (text t : string) :
  tts_elevenlabs text = TtsPost t -> t = Py.strip text /\ Py.str_truthy t = true.
Proof.
  unfold tts_elevenlabs. destruct (Py.str_truthy (Py.strip text)) eqn:E; [|discriminate].
  intros [= <-]. done.
Qed.

Lemma run_tts_post (net : option (list Byte.byte)) (text t : string) :
  In (PostTTS t) (snd (run_tts net text)) -> t = Py.strip text /\ Py.str_truthy t = true.
Proof.
  unfold run_tts. destruct (tts_elevenlabs text) as [b|t0] eqn:E.
  - simpl. intuition discriminate.
  - destruct net; simpl; intros [H|[H|[]]]; try discriminate;
      injection H as <-; by apply tts_post_text.
Qed.

(** *** The streaming LLM path *)

(** X11: [_llm_streaming] with a token already signalled on entry returns
    [''] without sending the completion request; with a token that is never
    signalled it returns exactly the stripped concatenation of the stream's
    non-empty deltas. *)
Theorem llm_streaming_behaviour :
  (forall net, _llm_streaming (Some 0%nat) net = (Ok EmptyString, false)) /\
  (forall evs, _llm_streaming None (Some (map Some evs)) =
     (Ok (Py.strip (join_str (truthy_deltas evs))), true)).
Proof.
  split; [reflexivity|]. intros evs.
  unfold _llm_streaming, chat_with_alina_stream. simpl.
  destruct (stream_loop_none 1 evs []) as [k' ->]. simpl. by rewrite char_loop_none.
Qed.

(** X12: cancellation only cuts the streamed answer short: on a stream that
    does not fail, [_llm_streaming] never raises, and whenever the token is
    signalled, what it returns is a prefix of the answer it returns when the
    token is never signalled. *)
Theorem llm_streaming_cancel_prefix (sig : token_obs) (evs : list stream_event) :
  match fst (_llm_streaming sig (Some (map Some evs))) with
  | Ok s => exists r, Py.strip (join_str (truthy_deltas evs)) = String.append s r
  | Raise _ => False
  end.
Proof.
  unfold _llm_streaming, chat_with_alina_stream.
  destruct (cancelled_at sig 0); [by exists (Py.strip (join_str (truthy_deltas evs)))|].
  pose proof (stream_loop_map_some sig 1 evs []) as Hs.
  destruct (stream_loop sig 1 (map Some evs) []) as [[chunks k]|] eqn:E; [|done].
  destruct (stream_loop_prefix _ _ _ _ _ _ E) as (c1 & c2 & -> & Hc). simpl.
  rewrite <- Hc, join_str_app.
  destruct (strip_app_prefix (join_str c1) (join_str c2)) as [r1 ->].
  destruct (char_loop_prefix sig k (Py.strip (join_str c1))) as [r2 Hr2].
  exists (String.append r2 r1). rewrite str_app_assoc, <- Hr2. done.
Qed.

(** *** The text sent to TTS *)

(** X13: what the primary assistant sends to ElevenLabs is exactly its
    answer: when [handle_user_audio] posts a text [t] to TTS, [t] is
    non-empty and has no surrounding whitespace, the assistant turn appended
    to the history has content [t], and a successful result's [answer] is
    [t]. *)
Theorem primary_tts_text_is_answer (a : alina_assistant) (io : adapters) (sig : token_obs)
    (t : string) :
  let '(a', r, tr) := handle_user_audio a io sig in
  In (PostTTS t) tr ->
  Py.str_truthy t = true /\ Py.strip t = t /\
  (exists a1, a' = append_trim a1 (mk_turn Assistant t)) /\
  match r with Ok d => r_answer d = t | Raise _ => True end.
Proof.
  unfold handle_user_audio.
  destruct (stt_out io) as [v|]; [|simpl; intuition discriminate].
  destruct (cancelled_at sig 1); [simpl; intuition discriminate|].
  destruct (_ || _); [simpl; intuition discriminate|].
  destruct (llm_out io) as [ans0|]; [|simpl; intuition discriminate].
  destruct (cancelled_at sig 2); [simpl; intuition discriminate|].
  pose proof (run_tts_post (tts_net io) (Py.strip ans0) t) as Hp.
  destruct (run_tts (tts_net io) (Py.strip ans0)) as [res tr2].
  assert (Hin2 : In (PostTTS t) ([CallSTT; CallLLM (history (append_trim a
                   (mk_turn User (Py.strip (py_str v)))))] ++ tr2) -> t = Py.strip ans0 /\
                 Py.str_truthy t = true).
  { intros Hin. apply in_app_or in Hin as [Hin|Hin]; [simpl in Hin; intuition discriminate|].
    destruct (Hp Hin) as [-> Ht]. rewrite strip_idem in Ht |- *. done. }
  destruct res as [b|m]; simpl; intros Hin; destruct (Hin2 Hin) as [-> Ht];
    (split; [exact Ht|split; [apply strip_idem|split; [by eexists|done]]]).
Qed.

Lemma primary_tts_text_is_answer_witness :
  let io := mk_adapters (Some (PStr "hi")) (Some " Hello! ") (Some [Byte.x02]) in
  let '(a', r, tr) := handle_user_audio (new_assistant "en" 8) io None in
  In (PostTTS "Hello!") tr /\
  (Py.str_truthy "Hello!" = true /\ Py.strip "Hello!" = "Hello!" /\
   (exists a1, a' = append_trim a1 (mk_turn Assistant "Hello!")) /\
   match r with Ok d => r_answer d = "Hello!" | Raise _ => True end).
Proof.
  pose proof (primary_tts_text_is_answer (new_assistant "en" 8)
    (mk_adapters (Some (PStr "hi")) (Some " Hello! ") (Some [Byte.x02])) None "Hello!") as H.
  vm_compute in H |- *.
  split; [|apply H]; repeat (first [left; reflexivity|right]).
Defined.


(** *** [_b64] and [_normalize_lang] *)

Lemma b64_facts (n : nat) (b : list Byte.byte) :
  (length b <= n)%nat ->
  String.length (_b64 b) = (4 * ((length b + 2) / 3))%nat.
Proof.
  revert b. induction n as [|n IH]; intros b Hb.
  - destruct b; [reflexivity|simpl in Hb; lia].
  - destruct b as [|x [|y [|z rest]]]; try reflexivity.
    simpl in Hb. simpl String.length. rewrite (IH rest) by lia. simpl length.
    replace (S (S (S (length rest))) + 2)%nat with (1 * 3 + (length rest + 2))%nat by lia.
    rewrite Nat.div_add_l by lia. lia.
Qed.

(** X15: [_b64] (the [audio_base64] field) is the empty string exactly for
    empty audio, and otherwise has [4 * ceil(n / 3)] characters for [n]
    bytes. *)
Theorem b64_length_and_empty (b : list Byte.byte) :
  String.length (_b64 b) = (4 * ((length b + 2) / 3))%nat /\
  (_b64 b = EmptyString <-> b = []).
Proof.
  split; [by apply (b64_facts (length b))|].
  destruct b as [|x [|y [|z rest]]]; simpl; split; done.
Qed.

Lemma isspace_lower (c : Ascii.ascii) : Py.isspace c = true -> ascii_lower c = c.
Proof.
  unfold Py.isspace, ascii_lower. set (n := Ascii.nat_of_ascii c). intros H.
  destruct (Nat.leb_spec 65 n); [|done]. exfalso.
  apply orb_prop in H as [H|H]; apply andb_prop in H as [_ H]; apply Nat.leb_le in H; lia.
Qed.

Lemma all_space_lower (s : string) : all_space s = true -> py_lower s = s.
Proof.
  induction s as [|c s IH]; simpl; [done|]. intros H. apply andb_prop in H as [Hc Hs].
  by rewrite isspace_lower, IH.
Qed.

(** X16: the Deepgram language code falls back to ["ru"] only for a missing
    or empty language: a non-empty language made only of whitespace is
    normalised to the empty string, not to ["ru"]. *)
Theorem normalize_lang_blank :
  _normalize_lang None = "ru" /\ _normalize_lang (Some EmptyString) = "ru" /\
  forall s, s <> EmptyString -> all_space s = true -> _normalize_lang (Some s) = EmptyString.
Proof.
  split; [reflexivity|split; [reflexivity|]]. intros s Hne Hs.
  unfold _normalize_lang. destruct s as [|c s']; [done|]. simpl negb. cbv iota.
  rewrite (all_space_lower _ Hs), (strip_all_space _ Hs). reflexivity.
Qed.

(** *** More on the primary path *)

Lemma append_trim_head (a : alina_assistant) (s t : turn) (rest : list turn) :
  history a = s :: rest -> exists h, history (append_trim a t) = s :: h.
Proof.
  intros Hh. unfold append_trim, _trim_history. rewrite Hh. simpl.
  destruct (_ <=? 1); simpl; [by eexists|].
  destruct (_ >? _); simpl; by eexists.
Qed.

(** X17: with the primary assistant loaded (its transcription being the
    un-awaited coroutine), every HTTP 200 of /alina/voice comes from the
    fallback pipeline and carries [timings["assistant_failed_fallback"]]. *)
Theorem primary_http200_from_fallback (srv : server) (audio : list Byte.byte)
    (lang session_id : string) (env : request_env) :
  assistant_ru srv <> None -> stt_out (primary_io env) = Some PCoro ->
  match snd (fst (alina_voice srv audio lang session_id env)) with
  | HTTP200 d _ => exists e, r_fallback_reason d = Some e
  | HTTPError _ _ => True
  end.
Proof.
  intros Hru Hs. destruct audio as [|b audio]; [done|]. unfold alina_voice, voice_pipeline.
  set (st := snd (begin_run _ (cancels srv))).
  change (assistant_ru (set_cancels srv st)) with (assistant_ru srv).
  destruct (assistant_ru srv) as [ru|]; [|done].
  destruct (_pick_lang_assistant (set_cancels srv st) lang) as [a|].
  - destruct (handle_user_audio a (primary_io env) (signal env)) as [[a' r] tr] eqn:Hh.
    destruct r as [d|e].
    + simpl. unfold json_ok. by rewrite (handle_user_audio_transcript a _ _ _ a' d tr Hs Hh).
    + destruct (_fallback_pipeline lang (fallback_io env) (signal env)) as [[d|m] tr'];
        simpl; [destruct (json_ok _); [by eexists|done]|done].
  - destruct (_fallback_pipeline lang (fallback_io env) (signal env)) as [[d|m] tr'];
      simpl; [destruct (json_ok _); [by eexists|done]|done].
Qed.

Lemma primary_http200_from_fallback_witness :
  let env := mk_env (mk_adapters (Some PCoro) None None)
               (mk_adapters (Some (PStr "hello")) (Some "hi") (Some [Byte.x02])) None "u1" in
  match snd (fst (alina_voice (init_server true) [Byte.x01] "en" "s1" env)) with
  | HTTP200 d _ => exists e, r_fallback_reason d = Some e
  | HTTPError _ _ => True
  end.
Proof. apply primary_http200_from_fallback; [discriminate|reflexivity]. Defined.

(** X18: for every [max_history_turns] (also 0 or negative), a primary run
    keeps the first history entry (the system prompt) in first position, and
    every LLM prompt it sends starts with it. *)
Theorem primary_prompt_starts_with_system (a : alina_assistant) (io : adapters)
    (sig : token_obs) (s : turn) (rest : list turn) :
  history a = s :: rest ->
  let '(a', _, tr) := handle_user_audio a io sig in
  (exists h, history a' = s :: h) /\ (forall p, In (CallLLM p) tr -> exists h, p = s :: h).
Proof.
  intros Hh.
  assert (Hno : forall p, ~ In (CallLLM p) [CallSTT]) by (simpl; intuition discriminate).
  unfold handle_user_audio.
  destruct (stt_out io) as [v|]; [|split; [by exists rest|by intros p Hp; destruct (Hno p)]].
  destruct (cancelled_at sig 1); [split; [by exists rest|by intros p Hp; destruct (Hno p)]|].
  destruct (_ || _); [split; [by exists rest|by intros p Hp; destruct (Hno p)]|].
  set (a1 := append_trim a _).
  destruct (append_trim_head a s (mk_turn User (Py.strip (py_str v))) rest Hh) as [h1 H1].
  fold a1 in H1.
  assert (Htr1 : forall p, In (CallLLM p) [CallSTT; CallLLM (history a1)] -> exists h, p = s :: h).
  { intros p [Hp|[Hp|[]]]; [discriminate|]. injection Hp as <-. by exists h1. }
  destruct (llm_out io) as [ans0|]; [|split; [by exists h1|exact Htr1]].
  destruct (cancelled_at sig 2); [split; [by exists h1|exact Htr1]|].
  destruct (append_trim_head a1 s (mk_turn Assistant (Py.strip ans0)) h1 H1) as [h2 H2].
  pose proof (run_tts_no_llm (tts_net io) (Py.strip ans0)) as Hno2.
  destruct (run_tts (tts_net io) (Py.strip ans0)) as [[b|m] tr2];
    (split; [by exists h2|]); intros p Hp; apply in_app_or in Hp as [Hp|Hp];
    [by apply Htr1|by destruct (Hno2 p)|by apply Htr1|by destruct (Hno2 p)].
Qed.

Lemma primary_prompt_starts_with_system_witness :
  let io := mk_adapters (Some (PStr "hi")) (Some "ok") (Some [Byte.x02]) in
  let '(a', _, tr) := handle_user_audio (set_history (new_assistant "ru" 0)
                        [mk_turn System "p"; mk_turn User "q"]) io None in
  (exists h, history a' = mk_turn System "p" :: h) /\
  (forall p, In (CallLLM p) tr -> exists h, p = mk_turn System "p" :: h).
Proof.
  apply (primary_prompt_starts_with_system _ _ _ (mk_turn System "p") [mk_turn User "q"]).
  reflexivity.
Defined.
